(** * ensemble.volren.volume_cut_planes: the [VolumeCutPlanes] scene member

    A shallow embedding of [VolumeCutPlanes] (attachment of the three image
    plane widgets, the opacity handler, the brightness/contrast handler and
    the [Range] traits that guard its scalars), followed by the properties
    the specification states about it.

    The Python code computes on [float] objects.  The embedding is therefore
    written once, over an interface of float operations, and read at two
    arithmetics:
    - [binary64]: IEEE 754 double precision, evaluated by the kernel's
      primitive floats; this is the arithmetic CPython runs;
    - [exact]: the real numbers, the arithmetic in which the formulas of the
      specification are ordinarily read. *)

From Stdlib Require Import Reals Lra ZArith Uint63 PrimFloat FloatAxioms SpecFloat.
From stdpp Require Import base decidable option list strings.

(** ** The arithmetic of Python floats *)

(** The operations the module applies to floats: [+], [-], [*], [/], unary
    minus, the builtin [pow], the comparisons made by [Range] validation
    ([<], and [>] as [<] with the sides exchanged) and by trait change
    detection ([==]), and the literals that occur in the source.  The
    comparison [<=] serves the statements only. *)
Class FloatOps (F : Type) := {
  fadd : F -> F -> F;
  fsub : F -> F -> F;
  fmul : F -> F -> F;
  fdiv : F -> F -> F;
  fneg : F -> F;
  fpow : F -> F -> F;
  fle : F -> F -> bool;
  flt : F -> F -> bool;
  feq : F -> F -> bool;
  f0 : F;
  f1 : F;
  f2 : F
}.

(** IEEE 754 binary64.  The builtin [pow] on floats answers [1.0] itself
    when the exponent compares equal to zero; for the base [2.0] and the
    finite non-zero exponents a [Range(-1.0, 1.0)] trait can hold it hands
    the call to the C library's [pow].  [libm_pow], a parameter of the
    instance, stands for the answer in all cases but the first. *)
Definition binary64 (libm_pow : float -> float -> float) : FloatOps float := {|
  fadd := PrimFloat.add;
  fsub := PrimFloat.sub;
  fmul := PrimFloat.mul;
  fdiv := PrimFloat.div;
  fneg := PrimFloat.opp;
  fpow := fun x y => if PrimFloat.eqb y 0%float then 1%float else libm_pow x y;
  fle := PrimFloat.leb;
  flt := PrimFloat.ltb;
  feq := PrimFloat.eqb;
  f0 := 0%float;
  f1 := 1%float;
  f2 := 2%float
|}.

#[local] Instance Rle_decision (x y : R) : Decision (x <= y)%R := Rle_dec x y.
#[local] Instance Rlt_decision (x y : R) : Decision (x < y)%R := Rlt_dec x y.
#[local] Instance Req_decision (x y : R) : Decision (x = y) := Req_dec_T x y.

(** Exact real arithmetic; [pow(x, y)] is [x] to the real power [y]. *)
Definition exact : FloatOps R := {|
  fadd := Rplus;
  fsub := Rminus;
  fmul := Rmult;
  fdiv := Rdiv;
  fneg := Ropp;
  fpow := Rpower;
  fle := fun x y => bool_decide (x <= y)%R;
  flt := fun x y => bool_decide (x < y)%R;
  feq := fun x y => bool_decide (x = y);
  f0 := 0%R;
  f1 := 1%R;
  f2 := 2%R
|}.

(** The one law of the order the statements rely on: a value that is at
    least [x] is not below [x].  Python's floats satisfy it, NaN included,
    since every comparison with a NaN is false; so do the reals. *)
Class FloatOrder (F : Type) {ops : FloatOps F} : Prop :=
  fle_not_gt : forall x y : F, fle x y = true -> flt y x = false.

(** ** Exceptions and the state-and-exception monad *)

Inductive Exn :=
| AttributeError   (* attribute access on [None] *)
| TraitError       (* a value refused by a trait's validation *)
| DanglingHandle.  (* model only: a handle that names no object of the
                      store; a Python reference always names one *)

(** A Python call either returns or raises; in both cases the mutations
    made so far stay in the store. *)
Inductive Outcome (S A : Type) :=
| Return (a : A) (s : S)
| Raise (e : Exn) (s : S).
Arguments Return {S A} a s.
Arguments Raise {S A} e s.

Definition M (S A : Type) : Type := S -> Outcome S A.

Definition ret {S A} (a : A) : M S A := fun s => Return a s.
Definition raise {S A} (e : Exn) : M S A := fun s => Raise e s.
Definition bind {S A B} (m : M S A) (k : A -> M S B) : M S B :=
  fun s => match m s with
           | Return a s' => k a s'
           | Raise e s' => Raise e s'
           end.
Definition get {S} : M S S := fun s => Return s s.
Definition modify {S} (f : S -> S) : M S unit := fun s => Return tt (f s).

Declare Scope py_scope.
Delimit Scope py_scope with py.
Notation "x <~ m ;; k" := (bind m (fun x => k))
  (at level 100, m at next level, right associativity) : py_scope.
Notation "m ;;; k" := (bind m (fun _ => k))
  (at level 100, k at level 200, right associativity) : py_scope.
Open Scope py_scope.

(** [for a in l: body a] *)
Fixpoint for_ {S A} (l : list A) (body : A -> M S unit) : M S unit :=
  match l with
  | [] => ret tt
  | a :: l' => body a ;;; for_ l' body
  end.
#[global] Arguments for_ : simpl never.

(** ** The objects of the scene *)

(** Objects live in stores and are named by handles, so that two references
    to one object see each other's writes. *)
Abbreviation handle := nat (only parsing).

Inductive Axis := AxisX | AxisY | AxisZ.

(** The characters of ['xyz'], in iteration order. *)
Definition xyz : list Axis := [AxisX; AxisY; AxisZ].

Definition axis_name (a : Axis) : string :=
  match a with AxisX => "x" | AxisY => "y" | AxisZ => "z" end.

Section Model.
Context {F : Type} {ops : FloatOps F}.

(** [module_manager.scalar_lut_manager] *)
Record LutManager := {
  lut_mode : string;
  use_default_range : bool;
  default_data_range : F * F;
  data_range : F * F
}.

(** An image plane widget module of the pipeline.  [lut] is the handle of
    [ipw.module_manager.scalar_lut_manager], [opacity] is
    [ipw.ipw.texture_plane_property.opacity] and [renders] counts the calls
    of [ipw.render()]. *)
Record ImagePlaneWidget := {
  source : handle;
  plane_orientation : string;
  lut : handle;
  visible : bool;
  opacity : F;
  renders : nat
}.

(** A top-level data node of the scene: the data objects it outputs, the
    scalar range of its data, and the LUT manager of its module manager once
    a module has been added to it. *)
Record DataNode := {
  outputs : list nat;
  scalar_range : F * F;
  module_manager : option handle
}.

(** [scene_model.mayavi_scene] with the stores of the objects below it. *)
Record Scene := {
  children : list DataNode;
  widgets : list ImagePlaneWidget;
  luts : list LutManager
}.

(** [volume_actor]: only [volume_actor.mapper.input] is read. *)
Record VolumeActor := { mapper_input : nat }.

(** The traits of a [VolumeCutPlanes] object. *)
Record VolumeCutPlanes := {
  image_plane_widget_x : option handle;
  image_plane_widget_y : option handle;
  image_plane_widget_z : option handle;
  slicer_alpha : F;
  cut_brightness : F;
  cut_contrast : F
}.

(** [VolumeCutPlanes()]: the declared default values. *)
Definition new_cut_planes : VolumeCutPlanes := {|
  image_plane_widget_x := None;
  image_plane_widget_y := None;
  image_plane_widget_z := None;
  slicer_alpha := f1;
  cut_brightness := f0;
  cut_contrast := f0
|}.

(** The program state: the scene and [self]. *)
Record State := { scene : Scene; self : VolumeCutPlanes }.

Definition Py (A : Type) : Type := M State A.

Definition image_plane_widgets (o : VolumeCutPlanes) : list (option handle) :=
  [image_plane_widget_x o; image_plane_widget_y o; image_plane_widget_z o].

Definition getattr_ipw (a : Axis) (o : VolumeCutPlanes) : option handle :=
  match a with
  | AxisX => image_plane_widget_x o
  | AxisY => image_plane_widget_y o
  | AxisZ => image_plane_widget_z o
  end.

(** *** Store updates *)

Definition with_widgets (ws : list ImagePlaneWidget) (sc : Scene) : Scene :=
  {| children := children sc; widgets := ws; luts := luts sc |}.
Definition with_luts (ls : list LutManager) (sc : Scene) : Scene :=
  {| children := children sc; widgets := widgets sc; luts := ls |}.
Definition with_children (cs : list DataNode) (sc : Scene) : Scene :=
  {| children := cs; widgets := widgets sc; luts := luts sc |}.
Definition with_scene (sc : Scene) (s : State) : State :=
  {| scene := sc; self := self s |}.
Definition with_self (o : VolumeCutPlanes) (s : State) : State :=
  {| scene := scene s; self := o |}.

Definition set_opacity (v : F) (w : ImagePlaneWidget) : ImagePlaneWidget :=
  {| source := source w; plane_orientation := plane_orientation w;
     lut := lut w; visible := visible w; opacity := v; renders := renders w |}.
Definition set_visible (v : bool) (w : ImagePlaneWidget) : ImagePlaneWidget :=
  {| source := source w; plane_orientation := plane_orientation w;
     lut := lut w; visible := v; opacity := opacity w; renders := renders w |}.
Definition count_render (w : ImagePlaneWidget) : ImagePlaneWidget :=
  {| source := source w; plane_orientation := plane_orientation w;
     lut := lut w; visible := visible w; opacity := opacity w;
     renders := S (renders w) |}.

Definition set_lut_mode (m : string) (l : LutManager) : LutManager :=
  {| lut_mode := m; use_default_range := use_default_range l;
     default_data_range := default_data_range l; data_range := data_range l |}.
Definition set_use_default_range (b : bool) (l : LutManager) : LutManager :=
  {| lut_mode := lut_mode l; use_default_range := b;
     default_data_range := default_data_range l; data_range := data_range l |}.
Definition set_data_range (r : F * F) (l : LutManager) : LutManager :=
  {| lut_mode := lut_mode l; use_default_range := use_default_range l;
     default_data_range := default_data_range l; data_range := r |}.

Definition set_module_manager (l : handle) (n : DataNode) : DataNode :=
  {| outputs := outputs n; scalar_range := scalar_range n;
     module_manager := Some l |}.

(** *** Attribute access through references *)

(** Reading through a reference: [None] has no attributes. *)
Definition the_widget (ipw : option handle) : Py (handle * ImagePlaneWidget) :=
  match ipw with
  | None => raise AttributeError
  | Some h =>
      s <~ get ;;
      match widgets (scene s) !! h with
      | Some w => ret (h, w)
      | None => raise DanglingHandle
      end
  end.

(** [ipw.<attribute> = ...], as an update [f] of the widget. *)
Definition update_widget (ipw : option handle)
    (f : ImagePlaneWidget -> ImagePlaneWidget) : Py unit :=
  hw <~ the_widget ipw ;;
  modify (fun s =>
    with_scene (with_widgets (alter f hw.1 (widgets (scene s))) (scene s)) s).

(** [ipw.module_manager.scalar_lut_manager] *)
Definition scalar_lut_manager (ipw : option handle) : Py (handle * LutManager) :=
  hw <~ the_widget ipw ;;
  s <~ get ;;
  match luts (scene s) !! lut hw.2 with
  | Some l => ret (lut hw.2, l)
  | None => raise DanglingHandle
  end.

Definition update_lut (l : handle) (f : LutManager -> LutManager) : Py unit :=
  s <~ get ;;
  match luts (scene s) !! l with
  | Some _ =>
      modify (fun s =>
        with_scene (with_luts (alter f l (luts (scene s))) (scene s)) s)
  | None => raise DanglingHandle
  end.

(** [ipw.render()] *)
Definition render (ipw : option handle) : Py unit :=
  update_widget ipw count_render.

Definition is_not_None {A} (o : option A) : bool :=
  match o with Some _ => true | None => false end.

Definition get_lut (l : handle) : Py LutManager :=
  s <~ get ;;
  match luts (scene s) !! l with
  | Some m => ret m
  | None => raise DanglingHandle
  end.

(** *** The toolkit call [mlab.pipeline.image_plane_widget]

    The call adds a new image plane widget module below [data_source].  A
    source keeps one module manager for all its modules, created when the
    first module is added; its scalar LUT manager starts on the data's scalar
    range.  The new widget is visible, opaque and not yet rendered. *)
Definition new_lut_manager (n : DataNode) : LutManager :=
  {| lut_mode := "blue-red"; use_default_range := true;
     default_data_range := scalar_range n; data_range := scalar_range n |}.

Definition new_widget (data_source : handle) (orientation : string)
    (l : handle) : ImagePlaneWidget :=
  {| source := data_source; plane_orientation := orientation; lut := l;
     visible := true; opacity := f1; renders := 0 |}.

Definition the_module_manager (data_source : handle) : Py handle :=
  s <~ get ;;
  match children (scene s) !! data_source with
  | None => raise DanglingHandle
  | Some node =>
      match module_manager node with
      | Some l => ret l
      | None =>
          let l := length (luts (scene s)) in
          modify (fun s =>
            with_scene
              (with_children
                 (<[data_source := set_module_manager l node]> (children (scene s)))
                 (with_luts (luts (scene s) ++ [new_lut_manager node]) (scene s)))
              s) ;;;
          ret l
      end
  end.

Definition image_plane_widget (data_source : handle) (orientation : string)
    : Py handle :=
  l <~ the_module_manager data_source ;;
  s <~ get ;;
  let h := length (widgets (scene s)) in
  modify (fun s =>
    with_scene
      (with_widgets (widgets (scene s) ++ [new_widget data_source orientation l])
         (scene s))
      s) ;;;
  ret h.

(** *** [Range] traits on floats

    The validator of a [Range(low, high)] trait with float bounds refuses a
    value when [value < low] or [value > high]: it raises [TraitError] and
    nothing is stored.  A NaN is neither below nor above and is let
    through. *)
Definition range_validate (low high value : F) : Py F :=
  if flt value low || flt high value then raise TraitError else ret value.

(** [ipw.ipw.texture_plane_property.opacity = value].  The toolkit declares
    the opacity of a property as a [Range(0.0, 1.0)] trait, so the write is
    validated like an assignment to [slicer_alpha]. *)
Definition set_texture_plane_opacity (ipw : option handle) (value : F)
    : Py unit :=
  the_widget ipw ;;;
  v <~ range_validate f0 f1 value ;;
  update_widget ipw (set_opacity v).

(** ** The methods of [VolumeCutPlanes] *)

(** [_find_volume_data_source]: the first child of the scene whose outputs
    contain [volume_actor.mapper.input]; [None] when there is none. *)
Fixpoint find_child (volume_image_data : nat) (cs : list DataNode) (i : handle)
    : option handle :=
  match cs with
  | [] => None
  | child :: cs' =>
      if bool_decide (volume_image_data ∈ outputs child) then Some i
      else find_child volume_image_data cs' (S i)
  end.

Definition _find_volume_data_source (scene_model : Scene)
    (volume_actor : VolumeActor) : option handle :=
  let volume_image_data := mapper_input volume_actor in
  find_child volume_image_data (children scene_model) 0.

(** [_on_cut_brightness_contrast] *)
Definition _on_cut_brightness_contrast : Py unit :=
  s <~ get ;;
  if is_not_None (image_plane_widget_z (self s)) then
    let plane_widget := image_plane_widget_z (self s) in
    lm <~ scalar_lut_manager plane_widget ;;
    let lut_manager := lm.1 in
    update_lut lut_manager (set_use_default_range false) ;;;
    m <~ get_lut lut_manager ;;
    let data_low := (default_data_range m).1 in
    let data_high := (default_data_range m).2 in
    let data_level := fdiv (fadd data_low data_high) f2 in
    let data_radius := fdiv (fsub data_high data_low) f2 in
    let level := fsub data_level (fmul data_radius (cut_brightness (self s))) in
    let radius := fmul data_radius (fpow f2 (fneg (cut_contrast (self s)))) in
    update_lut lut_manager (set_data_range (fsub level radius, fadd level radius)) ;;;
    for_ (image_plane_widgets (self s)) (fun ipw =>
      if is_not_None ipw then render ipw else ret tt)
  else ret tt.

(** [_slicer_alpha_changed] *)
Definition _slicer_alpha_changed (alpha : F) : Py unit :=
  s <~ get ;;
  for_ (image_plane_widgets (self s)) (fun ipw =>
    if is_not_None ipw then
      set_texture_plane_opacity ipw alpha ;;;
      render ipw
    else ret tt).

(** *** Trait assignment *)

Definition store_ipw (a : Axis) (v : option handle) (o : VolumeCutPlanes)
    : VolumeCutPlanes :=
  {| image_plane_widget_x := match a with AxisX => v | _ => image_plane_widget_x o end;
     image_plane_widget_y := match a with AxisY => v | _ => image_plane_widget_y o end;
     image_plane_widget_z := match a with AxisZ => v | _ => image_plane_widget_z o end;
     slicer_alpha := slicer_alpha o;
     cut_brightness := cut_brightness o;
     cut_contrast := cut_contrast o |}.

(** [setattr(self, 'image_plane_widget_' + axis, ipw)].  A trait notifies its
    listeners when the stored value changes; [image_plane_widget_z] is
    listened to by [_on_cut_brightness_contrast]. *)
Definition setattr_ipw (a : Axis) (v : option handle) : Py unit :=
  s <~ get ;;
  let old := getattr_ipw a (self s) in
  modify (fun s => with_self (store_ipw a v (self s)) s) ;;;
  match a with
  | AxisZ => if bool_decide (old = v) then ret tt else _on_cut_brightness_contrast
  | _ => ret tt
  end.

Definition store_slicer_alpha (v : F) (o : VolumeCutPlanes) : VolumeCutPlanes :=
  {| image_plane_widget_x := image_plane_widget_x o;
     image_plane_widget_y := image_plane_widget_y o;
     image_plane_widget_z := image_plane_widget_z o;
     slicer_alpha := v;
     cut_brightness := cut_brightness o;
     cut_contrast := cut_contrast o |}.
Definition store_cut_brightness (v : F) (o : VolumeCutPlanes) : VolumeCutPlanes :=
  {| image_plane_widget_x := image_plane_widget_x o;
     image_plane_widget_y := image_plane_widget_y o;
     image_plane_widget_z := image_plane_widget_z o;
     slicer_alpha := slicer_alpha o;
     cut_brightness := v;
     cut_contrast := cut_contrast o |}.
Definition store_cut_contrast (v : F) (o : VolumeCutPlanes) : VolumeCutPlanes :=
  {| image_plane_widget_x := image_plane_widget_x o;
     image_plane_widget_y := image_plane_widget_y o;
     image_plane_widget_z := image_plane_widget_z o;
     slicer_alpha := slicer_alpha o;
     cut_brightness := cut_brightness o;
     cut_contrast := v |}.

(** [self.slicer_alpha = value], with [slicer_alpha = Range(0.0, 1.0)] *)
Definition set_slicer_alpha (value : F) : Py unit :=
  v <~ range_validate f0 f1 value ;;
  s <~ get ;;
  let old := slicer_alpha (self s) in
  modify (fun s => with_self (store_slicer_alpha v (self s)) s) ;;;
  if feq old v then ret tt else _slicer_alpha_changed v.

(** [self.cut_brightness = value], with [cut_brightness = Range(-1.0, 1.0)] *)
Definition set_cut_brightness (value : F) : Py unit :=
  v <~ range_validate (fneg f1) f1 value ;;
  s <~ get ;;
  let old := cut_brightness (self s) in
  modify (fun s => with_self (store_cut_brightness v (self s)) s) ;;;
  if feq old v then ret tt else _on_cut_brightness_contrast.

(** [self.cut_contrast = value], with [cut_contrast = Range(-1.0, 1.0)] *)
Definition set_cut_contrast (value : F) : Py unit :=
  v <~ range_validate (fneg f1) f1 value ;;
  s <~ get ;;
  let old := cut_contrast (self s) in
  modify (fun s => with_self (store_cut_contrast v (self s)) s) ;;;
  if feq old v then ret tt else _on_cut_brightness_contrast.

(** [add_actors_to_scene] *)
Definition add_actors_to_scene (volume_actor : VolumeActor) : Py unit :=
  s <~ get ;;
  let data_source := _find_volume_data_source (scene s) volume_actor in
  match data_source with
  | None => ret tt
  | Some data_source =>
      for_ xyz (fun axis =>
        ipw <~ image_plane_widget data_source (axis_name axis +:+ "_axes") ;;
        lm <~ scalar_lut_manager (Some ipw) ;;
        update_lut lm.1 (set_lut_mode "gray") ;;;
        update_widget (Some ipw) (set_visible false) ;;;
        setattr_ipw axis (Some ipw))
  end.

End Model.

(** ** Vocabulary of the statements *)

Section Vocabulary.
Context {F : Type} {ops : FloatOps F}.
Implicit Types (s : @State F) (sc : @Scene F) (o : @VolumeCutPlanes F).
Implicit Types (w : @ImagePlaneWidget F) (m : @LutManager F) (nd : @DataNode F).
Implicit Types (ipw : option handle) (h k : handle).

(** A reference held by the object names a widget of the scene. *)
Definition live sc ipw : Prop :=
  match ipw with
  | Some h => h < length (widgets sc)
  | None => True
  end.

Definition handles_live s : Prop :=
  Forall (live (scene s)) (image_plane_widgets (self s)).

(** The references inside the scene name objects of the scene. *)
Record scene_wf sc : Prop := {
  widget_lut_live : forall h w, widgets sc !! h = Some w -> lut w < length (luts sc);
  node_lut_live : forall i nd l,
    children sc !! i = Some nd -> module_manager nd = Some l -> l < length (luts sc)
}.

(** Applying [f] to the widget behind a reference. *)
Definition touch (f : @ImagePlaneWidget F -> @ImagePlaneWidget F) ipw s
    : @State F :=
  match ipw with
  | Some h => with_scene (with_widgets (alter f h (widgets (scene s))) (scene s)) s
  | None => s
  end.

(** How often the handle [k] occurs among the references [l]. *)
Definition hits k (l : list (option handle)) : nat :=
  length (filter (fun a => a = Some k) l).

(** What one pass of the loop of [_slicer_alpha_changed] does to a widget. *)
Definition paint (alpha : F) w : @ImagePlaneWidget F :=
  count_render (set_opacity alpha w).

Definition paint_step (alpha : F) ipw s : @State F :=
  touch count_render ipw (touch (set_opacity alpha) ipw s).

(** The display range in the words of the specification: level and radius
    of the default range, the level shifted by the brightness, the radius
    scaled by two to the minus contrast. *)
Definition display_range (data_low data_high b c : F) : F * F :=
  let level := fdiv (fadd data_low data_high) f2 in
  let radius := fdiv (fsub data_high data_low) f2 in
  let adjusted_level := fsub level (fmul radius b) in
  let adjusted_radius := fmul radius (fpow f2 (fneg c)) in
  (fsub adjusted_level adjusted_radius, fadd adjusted_level adjusted_radius).

(** The LUT manager reached from [image_plane_widget_z]. *)
Definition z_lut_manager s : option (@LutManager F) :=
  match image_plane_widget_z (self s) with
  | Some h =>
      match widgets (scene s) !! h with
      | Some w => luts (scene s) !! lut w
      | None => None
      end
  | None => None
  end.

Definition default_range s : option (F * F) :=
  default_data_range <$> z_lut_manager s.
Definition active_range s : option (F * F) :=
  data_range <$> z_lut_manager s.

(** The writes of the handler to the LUT manager [l], whose default range
    is [(data_low, data_high)]. *)
Definition rerange (l : handle) (data_low data_high : F) s : @State F :=
  let r := display_range data_low data_high
             (cut_brightness (self s)) (cut_contrast (self s)) in
  with_scene
    (with_luts
       (alter (set_data_range r) l
          (alter (set_use_default_range false) l (luts (scene s))))
       (scene s))
    s.

(** The state after one pass of the loop of [add_actors_to_scene] has
    created the widget, set the LUT mode and hidden the widget. *)
Definition plug (data_source : handle) (orientation : string) s : @State F :=
  match children (scene s) !! data_source with
  | None => s
  | Some nd =>
      let l := match module_manager nd with
               | Some l => l
               | None => length (luts (scene s))
               end in
      let cs := match module_manager nd with
                | Some _ => children (scene s)
                | None => <[data_source := set_module_manager l nd]> (children (scene s))
                end in
      let ls := match module_manager nd with
                | Some _ => luts (scene s)
                | None => luts (scene s) ++ [new_lut_manager nd]
                end in
      {| scene :=
           {| children := cs;
              widgets := alter (set_visible false) (length (widgets (scene s)))
                           (widgets (scene s) ++ [new_widget data_source orientation l]);
              luts := alter (set_lut_mode "gray") l ls |};
         self := self s |}
  end.

(** *** The [Range] traits

    The three [Range] traits of the class with their declared bounds. *)
Inductive RangeTrait := SlicerAlpha | CutBrightness | CutContrast.

Definition trait_low (t : RangeTrait) : F :=
  match t with
  | SlicerAlpha => f0
  | CutBrightness | CutContrast => fneg f1
  end.

Definition trait_high (t : RangeTrait) : F := f1.

Definition assign (t : RangeTrait) (value : F) : @Py F unit :=
  match t with
  | SlicerAlpha => set_slicer_alpha value
  | CutBrightness => set_cut_brightness value
  | CutContrast => set_cut_contrast value
  end.

Definition in_range (low high value : F) : bool :=
  fle low value && fle value high.

(** The test of the [Range] validator: the value is below [low] or above
    [high]. *)
Definition refused (low high value : F) : bool :=
  flt value low || flt high value.

(** *** Measures of a display range *)

Definition width (r : F * F) : F := fsub r.2 r.1.
Definition center (r : F * F) : F := fdiv (fadd r.1 r.2) f2.

(** The same scene and object with another contrast, or another
    brightness. *)
Definition with_contrast (c : F) (s : @State F) : @State F :=
  with_self (store_cut_contrast c (self s)) s.
Definition with_brightness (b : F) (s : @State F) : @State F :=
  with_self (store_cut_brightness b (self s)) s.

(** *** Concrete scenes

    A scene with one data source, which outputs the data object [0] and
    whose scalars span [r]; no module has been added yet. *)
Definition fresh_scene (r : F * F) : @Scene F :=
  {| children := [{| outputs := [0]; scalar_range := r; module_manager := None |}];
     widgets := [];
     luts := [] |}.

Definition fresh_state (r : F * F) : @State F :=
  {| scene := fresh_scene r; self := new_cut_planes |}.

(** The same scene once the three widgets are attached, seen with
    brightness [b] and contrast [c]. *)
Definition attached_scene (r : F * F) : @Scene F :=
  {| children := [{| outputs := [0]; scalar_range := r; module_manager := Some 0 |}];
     widgets := [set_visible false (new_widget 0 "x_axes" 0);
                 set_visible false (new_widget 0 "y_axes" 0);
                 set_visible false (new_widget 0 "z_axes" 0)];
     luts := [set_lut_mode "gray"
                (new_lut_manager
                   {| outputs := [0]; scalar_range := r; module_manager := None |})] |}.

Definition attached_state (r : F * F) (b c : F) : @State F :=
  {| scene := attached_scene r;
     self := {| image_plane_widget_x := Some 0;
                image_plane_widget_y := Some 1;
                image_plane_widget_z := Some 2;
                slicer_alpha := f1;
                cut_brightness := b;
                cut_contrast := c |} |}.

(** A state in which only the x handle holds a widget. *)
Definition partly_attached_state (r : F * F) : @State F :=
  {| scene := attached_scene r;
     self := {| image_plane_widget_x := Some 0;
                image_plane_widget_y := None;
                image_plane_widget_z := None;
                slicer_alpha := f1;
                cut_brightness := f0;
                cut_contrast := f0 |} |}.

End Vocabulary.

(** The float of a small integer. *)
Definition Z2f (z : Z) : float := PrimFloat.of_uint63 (Uint63.of_Z z).

Definition identity_check (libm_pow : float -> float -> float) (lo hi : Z)
    : bool :=
  let r := display_range (ops := binary64 libm_pow) (Z2f lo) (Z2f hi)
             0%float 0%float in
  PrimFloat.Leibniz.eqb r.1 (Z2f lo) && PrimFloat.Leibniz.eqb r.2 (Z2f hi).

(** The float [k / 64.0] of a small integer [k]. *)
Definition sixty_fourth (k : Z) : float :=
  if (k <? 0)%Z then (- Z2f (- k) / 64)%float else (Z2f k / 64)%float.

(** A C library [pow] as far as it is consulted for the base [2.0] at the
    contrasts -1 and 1: two to the power 1 and to the power -1. *)
Definition exact_powers (x y : float) : float :=
  if PrimFloat.eqb y 1 then 2%float
  else if PrimFloat.eqb y (-1) then 0.5%float
  else nan.

Definition ordered_check (b c lo hi : float) : bool :=
  let r := display_range (ops := binary64 exact_powers) lo hi b c in
  PrimFloat.leb r.1 r.2.

(** The check of every brightness of [bs] and contrast of [cs] on every
    range [lo <= hi] of [zs], whose members come with their floats. *)
Definition ordered_checks (bs cs : list float) (zs : list (Z * float))
    : bool :=
  forallb (fun b =>
    forallb (fun c =>
      forallb (fun lo =>
        forallb (fun hi => (hi.1 <? lo.1)%Z || ordered_check b c lo.2 hi.2) zs)
        zs) cs) bs.

(** ** Calls of the interface *)

(** The state an outcome leaves, whether the call returned or raised. *)
Definition after {S A} (o : Outcome S A) : S :=
  match o with
  | Return _ s => s
  | Raise _ s => s
  end.

Section Calls.
Context {F : Type} {ops : FloatOps F}.

(** What a client does with a [VolumeCutPlanes] object: it assigns one of
    the three scalars, or it asks the object to add its actors to the
    scene. *)
Inductive Call :=
| Assign (t : RangeTrait) (value : F)
| AddActors (volume_actor : VolumeActor).

Definition call (c : Call) : @Py F unit :=
  match c with
  | Assign t value => assign t value
  | AddActors volume_actor => add_actors_to_scene volume_actor
  end.

(** A client that makes the calls one after the other and goes on after a
    call that raised. *)
Definition run_calls (cs : list Call) (s : @State F) : @State F :=
  foldl (fun s c => after (call c s)) s cs.

(** The stored value of a [Range] trait. *)
Definition trait_value (t : RangeTrait) (o : @VolumeCutPlanes F) : F :=
  match t with
  | SlicerAlpha => slicer_alpha o
  | CutBrightness => cut_brightness o
  | CutContrast => cut_contrast o
  end.

(** The state right after an accepted value has been stored. *)
Definition stored (t : RangeTrait) (v : F) (s : @State F) : @State F :=
  match t with
  | SlicerAlpha => with_self (store_slicer_alpha v (self s)) s
  | CutBrightness => with_self (store_cut_brightness v (self s)) s
  | CutContrast => with_self (store_cut_contrast v (self s)) s
  end.

(** The three handles are all unattached or all attached. *)
Definition all_or_none (o : @VolumeCutPlanes F) : Prop :=
  image_plane_widgets o = [None; None; None] \/
  exists hx hy hz, image_plane_widgets o = [Some hx; Some hy; Some hz].

(** The three scalars are inside their declared ranges. *)
Definition traits_in_range (o : @VolumeCutPlanes F) : Prop :=
  in_range f0 f1 (slicer_alpha o) = true /\
  in_range (fneg f1) f1 (cut_brightness o) = true /\
  in_range (fneg f1) f1 (cut_contrast o) = true.

Record consistent (s : @State F) : Prop := {
  consistent_scene : scene_wf (scene s);
  consistent_handles : handles_live s;
  consistent_traits : traits_in_range (self s)
}.

(** No scalar is below the lower bound or above the upper bound of its
    trait.  This is what the validator enforces; a NaN satisfies it. *)
Definition traits_within (o : @VolumeCutPlanes F) : Prop :=
  refused f0 f1 (slicer_alpha o) = false /\
  refused (fneg f1) f1 (cut_brightness o) = false /\
  refused (fneg f1) f1 (cut_contrast o) = false.

Record valid (s : @State F) : Prop := {
  valid_scene : scene_wf (scene s);
  valid_handles : handles_live s;
  valid_traits : traits_within (self s)
}.

(** The LUT manager a widget added to [data_source] gets: the one of the
    source's module manager, or the next free handle when the source has no
    module manager yet. *)
Definition source_lut (sc : @Scene F) (data_source : handle) : handle :=
  match children sc !! data_source with
  | Some nd =>
      match module_manager nd with
      | Some l => l
      | None => length (luts sc)
      end
  | None => length (luts sc)
  end.

(** The widget [add_actors_to_scene] leaves for one axis, before any
    redraw. *)
Definition hidden_widget (data_source : handle) (a : Axis) (l : handle)
    : @ImagePlaneWidget F :=
  set_visible false (new_widget data_source (axis_name a +:+ "_axes") l).

End Calls.

(** ** The helpers of the test module *)

Section TestHelpers.

(** Objects and classes are those of the interpreter; [isinstance] is its
    builtin. *)
Context {Obj Class : Type} (isinstance : Obj -> Class -> bool).

(** [count_types]: [sum(int(isinstance(obj, type_class)) for obj in obj_list)],
    the sum starting at [0] and adding from the left. *)
Definition count_types (type_class : Class) (obj_list : list Obj) : Z :=
  foldl Z.add 0%Z
    ((fun obj => Z.b2z (isinstance obj type_class)) <$> obj_list).

End TestHelpers.

Section GcState.
Context {H : Type}.

(** The interpreter state [restore_gc_state] is about: whether the cyclic
    collector is enabled, and everything else. *)
Record Interp := { gc_enabled : bool; rest : H }.

Definition gc_isenabled : M Interp bool := fun s => Return (gc_enabled s) s.
Definition gc_enable : M Interp unit :=
  modify (fun s => {| gc_enabled := true; rest := rest s |}).
Definition gc_disable : M Interp unit :=
  modify (fun s => {| gc_enabled := false; rest := rest s |}).

(** [try: body finally: final] *)
Definition try_finally {S A} (body : M S A) (final : M S unit) : M S A :=
  fun s => match body s with
           | Return a s' => (final ;;; ret a) s'
           | Raise e s' => (final ;;; raise e) s'
           end.

(** [with restore_gc_state(): body].  The generator runs up to its [yield],
    the body runs, and the generator is resumed, by [next] after a return and
    by [throw] after an exception, which its [finally] lets through. *)
Definition with_restore_gc_state {A} (body : M Interp A) : M Interp A :=
  originally_enabled <~ gc_isenabled ;;
  try_finally body
    (if originally_enabled : bool then gc_enable else gc_disable).

End GcState.

(** ** Two states in exact arithmetic

    The scene of 8-bit data before and after attachment, with the declared
    default values of the scalars. *)

Definition exact_fresh : @State R :=
  fresh_state (ops := exact) (0, 255)%R.

Definition exact_attached : @State R :=
  attached_state (ops := exact) (0, 255)%R 0%R 0%R.

(** ** Reasoning about the store *)

(** ** The order of the two arithmetics *)

Lemma SFcompare_antisym (x y : spec_float) :
  SFcompare y x = CompOpp <$> SFcompare x y.
Proof.
  destruct x as [sx|sx| |sx mx ex], y as [sy|sy| |sy my ey]; simpl;
    try reflexivity; try (destruct sx; reflexivity);
    try (destruct sy; reflexivity); try (destruct sx, sy; reflexivity).
  destruct sx, sy; try reflexivity;
    rewrite (Z.compare_antisym ey ex); destruct (ey ?= ex)%Z; simpl;
    try reflexivity;
    fold (Pos.compare mx my); fold (Pos.compare my mx);
    rewrite (Pos.compare_antisym my mx);
    destruct (my ?= mx)%positive; reflexivity.
Qed.

Lemma leb_not_gt (x y : float) :
  PrimFloat.leb x y = true -> PrimFloat.ltb y x = false.
Proof.
  rewrite leb_spec, ltb_spec. unfold SFleb, SFltb. intros Hle.
  rewrite SFcompare_antisym.
  destruct (SFcompare _ _) as [[]|]; simpl; congruence.
Qed.

#[global] Instance binary64_order (libm_pow : float -> float -> float) :
  FloatOrder float (ops := binary64 libm_pow).
Proof. intros x y. apply leb_not_gt. Qed.

#[global] Instance exact_order : FloatOrder R (ops := exact).
Proof.
  intros x y Hle. simpl in *. apply bool_decide_eq_true_1 in Hle.
  apply bool_decide_eq_false_2. lra.
Qed.

Section Facts.
Context {F : Type} {ops : FloatOps F} {ord : FloatOrder F}.
Implicit Types (s : @State F) (sc : @Scene F) (o : @VolumeCutPlanes F).
Implicit Types (w : @ImagePlaneWidget F) (m : @LutManager F) (nd : @DataNode F).
Implicit Types (ipw : option handle) (h k : handle).

(** A value inside the closed range passes the validator. *)
Lemma in_range_not_refused (low high v : F) :
  in_range low high v = true -> refused low high v = false.
Proof.
  unfold in_range, refused. intros [Hl Hh]%andb_prop.
  rewrite (fle_not_gt _ _ Hl), (fle_not_gt _ _ Hh). reflexivity.
Qed.

Lemma range_validate_refused (low high v : F) s :
  refused low high v = true -> range_validate low high v s = Raise TraitError s.
Proof. unfold refused, range_validate. intros ->. reflexivity. Qed.

Lemma range_validate_passed (low high v : F) s :
  refused low high v = false -> range_validate low high v s = Return v s.
Proof. unfold refused, range_validate. intros ->. reflexivity. Qed.

Lemma update_widget_None f s : update_widget None f s = Raise AttributeError s.
Proof. reflexivity. Qed.

Lemma update_widget_live f ipw s :
  is_not_None ipw = true -> live (scene s) ipw ->
  update_widget ipw f s = Return tt (touch f ipw s).
Proof.
  destruct ipw as [h|]; [intros _ Hh | discriminate].
  apply lookup_lt_is_Some_2 in Hh as [w Hw].
  unfold update_widget, the_widget, bind, get, modify, ret; simpl.
  rewrite Hw; reflexivity.
Qed.

(** The write of an opacity the toolkit accepts. *)
Lemma set_texture_plane_opacity_live alpha ipw s :
  refused f0 f1 alpha = false ->
  is_not_None ipw = true -> live (scene s) ipw ->
  set_texture_plane_opacity ipw alpha s
  = Return tt (touch (set_opacity alpha) ipw s).
Proof.
  intros Hok Hsome Hlive.
  pose proof (update_widget_live (set_opacity alpha) ipw s Hsome Hlive) as Hup.
  destruct ipw as [h|]; [|discriminate].
  apply lookup_lt_is_Some_2 in Hlive as [w Hw].
  unfold set_texture_plane_opacity, the_widget, bind, get, ret.
  cbn beta iota. rewrite Hw, (range_validate_passed _ _ _ _ Hok). exact Hup.
Qed.

(** The write of an opacity below 0 or above 1 raises and writes nothing. *)
Lemma set_texture_plane_opacity_refused alpha ipw s :
  refused f0 f1 alpha = true ->
  is_not_None ipw = true -> live (scene s) ipw ->
  set_texture_plane_opacity ipw alpha s = Raise TraitError s.
Proof.
  intros Hout Hsome Hlive.
  destruct ipw as [h|]; [|discriminate].
  apply lookup_lt_is_Some_2 in Hlive as [w Hw].
  unfold set_texture_plane_opacity, the_widget, bind, get, ret.
  cbn beta iota. rewrite Hw, (range_validate_refused _ _ _ _ Hout). reflexivity.
Qed.

Lemma touch_self f ipw s : self (touch f ipw s) = self s.
Proof. destruct ipw; reflexivity. Qed.

Lemma touch_luts f ipw s : luts (scene (touch f ipw s)) = luts (scene s).
Proof. destruct ipw; reflexivity. Qed.

Lemma touch_children f ipw s : children (scene (touch f ipw s)) = children (scene s).
Proof. destruct ipw; reflexivity. Qed.

Lemma touch_length f ipw s :
  length (widgets (scene (touch f ipw s))) = length (widgets (scene s)).
Proof. destruct ipw; simpl; [apply length_alter | reflexivity]. Qed.

Lemma touch_live f a ipw s : live (scene s) ipw -> live (scene (touch f a s)) ipw.
Proof. destruct ipw; simpl; [rewrite touch_length; trivial | trivial]. Qed.

Lemma lookup_touch f ipw s k :
  widgets (scene (touch f ipw s)) !! k =
  if decide (ipw = Some k) then f <$> widgets (scene s) !! k
  else widgets (scene s) !! k.
Proof.
  destruct ipw as [h|]; simpl.
  - destruct (decide (Some h = Some k)) as [[= ->]|Hne].
    + apply list_lookup_alter_eq.
    + apply list_lookup_alter_ne; congruence.
  - destruct (decide (None = Some k)); [discriminate | reflexivity].
Qed.

(** A loop whose body returns, and acts on the state as [step] does. *)
Lemma for__steps {A} (P : A -> @State F -> Prop)
    (step : A -> @State F -> @State F) (body : A -> @Py F unit) (l : list A) :
  (forall a s, P a s -> body a s = Return tt (step a s)) ->
  (forall a b s, P a s -> P b s -> P b (step a s)) ->
  forall s, Forall (fun a => P a s) l ->
  for_ l body s = Return tt (foldl (fun s a => step a s) s l).
Proof.
  intros Hbody Hkeep. induction l as [|a l IH]; intros s Hl; [reflexivity|].
  apply Forall_cons in Hl as [Ha Hl].
  change (for_ (a :: l) body s) with (bind (body a) (fun _ => for_ l body) s).
  unfold bind.
  rewrite (Hbody a s Ha). apply IH.
  eapply Forall_impl; [exact Hl | intros b Hb; apply Hkeep; assumption].
Qed.

Section Fold.
Variable step : option handle -> @State F -> @State F.
Variable phi : @ImagePlaneWidget F -> @ImagePlaneWidget F.
Hypothesis step_widgets : forall a s k,
  widgets (scene (step a s)) !! k =
  if decide (a = Some k) then phi <$> widgets (scene s) !! k
  else widgets (scene s) !! k.
Hypothesis step_self : forall a s, self (step a s) = self s.
Hypothesis step_luts : forall a s, luts (scene (step a s)) = luts (scene s).
Hypothesis step_children : forall a s,
  children (scene (step a s)) = children (scene s).

Lemma foldl_step_widgets l s k :
  widgets (scene (foldl (fun s a => step a s) s l)) !! k =
  Nat.iter (hits k l) phi <$> widgets (scene s) !! k.
Proof.
  revert s. induction l as [|a l IH]; intros s; simpl.
  - destruct (widgets (scene s) !! k); reflexivity.
  - rewrite IH, step_widgets. unfold hits. rewrite filter_cons.
    destruct (decide (a = Some k)); [|reflexivity].
    simpl. destruct (widgets (scene s) !! k) as [w|]; simpl; [|reflexivity].
    f_equal. symmetry. apply Nat.iter_succ_r.
Qed.

Lemma foldl_step_self l s : self (foldl (fun s a => step a s) s l) = self s.
Proof. revert s. induction l as [|a l IH]; intros s; simpl; [|rewrite IH]; auto. Qed.

Lemma foldl_step_luts l s :
  luts (scene (foldl (fun s a => step a s) s l)) = luts (scene s).
Proof. revert s. induction l as [|a l IH]; intros s; simpl; [|rewrite IH]; auto. Qed.

Lemma foldl_step_children l s :
  children (scene (foldl (fun s a => step a s) s l)) = children (scene s).
Proof. revert s. induction l as [|a l IH]; intros s; simpl; [|rewrite IH]; auto. Qed.

Lemma foldl_step_length l s :
  length (widgets (scene (foldl (fun s a => step a s) s l))) =
  length (widgets (scene s)).
Proof.
  destruct (decide (length (widgets (scene (foldl (fun s a => step a s) s l)))
                    = length (widgets (scene s)))) as [|Hne]; [assumption|].
  exfalso.
  set (n1 := length (widgets (scene (foldl (fun s a => step a s) s l)))) in *.
  set (n2 := length (widgets (scene s))) in *.
  pose proof (foldl_step_widgets l s (Nat.min n1 n2)) as Hk.
  destruct (decide (n1 < n2)) as [Hlt|Hge].
  - replace (Nat.min n1 n2) with n1 in Hk by lia.
    rewrite (lookup_ge_None_2 _ n1) in Hk by (unfold n1; lia).
    destruct (lookup_lt_is_Some_2 (widgets (scene s)) n1 Hlt) as [w Hw].
    rewrite Hw in Hk. discriminate.
  - replace (Nat.min n1 n2) with n2 in Hk by lia.
    rewrite (lookup_ge_None_2 (widgets (scene s)) n2) in Hk by (unfold n2; lia).
    assert (Hlt : n2 < n1) by lia.
    destruct (lookup_lt_is_Some_2 _ n2 Hlt) as [w Hw].
    fold n1 in Hw. unfold n1 in Hw. rewrite Hw in Hk. discriminate.
Qed.

End Fold.

(** *** The opacity handler as a state transformer *)

Lemma paint_step_widgets alpha ipw s k :
  widgets (scene (paint_step alpha ipw s)) !! k =
  if decide (ipw = Some k) then paint alpha <$> widgets (scene s) !! k
  else widgets (scene s) !! k.
Proof.
  unfold paint_step. rewrite !lookup_touch.
  destruct (decide (ipw = Some k)); [|reflexivity].
  destruct (widgets (scene s) !! k); reflexivity.
Qed.

Lemma slicer_alpha_changed_run alpha s :
  handles_live s ->
  refused f0 f1 alpha = false ->
  _slicer_alpha_changed alpha s =
  Return tt (foldl (fun s a => paint_step alpha a s) s (image_plane_widgets (self s))).
Proof.
  intros Hlive Hok. unfold _slicer_alpha_changed, bind, get.
  apply (for__steps (fun a s => live (scene s) a)).
  - intros [h|] s0 Ha; [|reflexivity]. simpl. unfold bind.
    rewrite set_texture_plane_opacity_live by (simpl; auto).
    unfold render. rewrite update_widget_live; [reflexivity | reflexivity |].
    apply (touch_live _ (Some h) (Some h)); exact Ha.
  - intros a b s0 _ Hb. unfold paint_step. do 2 apply touch_live. exact Hb.
  - exact Hlive.
Qed.

Lemma iter_paint_opacity alpha n w :
  opacity (Nat.iter (S n) (paint alpha) w) = alpha.
Proof. reflexivity. Qed.

Lemma iter_paint_renders alpha n w :
  renders (Nat.iter n (paint alpha) w) = n + renders w.
Proof. induction n as [|n IH]; simpl; [|rewrite IH]; reflexivity. Qed.

Lemma iter_paint_frame alpha n w :
  let w' := Nat.iter n (paint alpha) w in
  source w' = source w /\ plane_orientation w' = plane_orientation w /\
  lut w' = lut w /\ visible w' = visible w.
Proof. induction n as [|n IH]; simpl in *; intuition. Qed.

Lemma hits_member k (l : list (option handle)) : Some k ∈ l -> 0 < hits k l.
Proof.
  unfold hits. induction l as [|a l IH]; [intros []%elem_of_nil|].
  intros [<-|Hin]%elem_of_cons; rewrite filter_cons.
  - destruct (decide (Some k = Some k)); [simpl; lia | congruence].
  - destruct (decide (a = Some k)); [simpl; lia | auto].
Qed.

Lemma hits_not_member k (l : list (option handle)) : Some k ∉ l -> hits k l = 0.
Proof.
  unfold hits. induction l as [|a l IH]; [reflexivity|].
  intros [Hne Hnin]%not_elem_of_cons. rewrite filter_cons.
  destruct (decide (a = Some k)); [congruence | auto].
Qed.

(** *** The brightness/contrast handler as a state transformer *)

Lemma on_cut_brightness_contrast_unattached s :
  image_plane_widget_z (self s) = None ->
  _on_cut_brightness_contrast s = Return tt s.
Proof.
  intros Hz. unfold _on_cut_brightness_contrast, bind, get. rewrite Hz. reflexivity.
Qed.

Lemma on_cut_brightness_contrast_run s h w m :
  image_plane_widget_z (self s) = Some h ->
  widgets (scene s) !! h = Some w ->
  luts (scene s) !! lut w = Some m ->
  handles_live s ->
  _on_cut_brightness_contrast s =
  Return tt
    (foldl (fun s a => touch count_render a s)
       (rerange (lut w) (default_data_range m).1 (default_data_range m).2 s)
       (image_plane_widgets (self s))).
Proof.
  intros Hz Hw Hm Hlive.
  unfold _on_cut_brightness_contrast, bind, get. rewrite Hz. simpl.
  unfold scalar_lut_manager, the_widget, bind, get, ret. rewrite Hw. simpl.
  rewrite Hm. simpl.
  unfold update_lut at 1. unfold bind, get, modify. rewrite Hm. simpl.
  unfold get_lut, bind, get, ret. simpl.
  rewrite list_lookup_alter_eq, Hm. simpl.
  unfold update_lut, bind, get, modify. simpl.
  rewrite list_lookup_alter_eq, Hm. simpl.
  rewrite (for__steps (fun a s => live (scene s) a) (touch count_render)).
  - reflexivity.
  - intros [k|] s0 Ha; [|reflexivity]. simpl.
    unfold render. rewrite update_widget_live; auto.
  - intros a b s0 _ Hb. apply touch_live. exact Hb.
  - exact Hlive.
Qed.

Lemma iter_count_render_lut n w : lut (Nat.iter n count_render w) = lut w.
Proof. induction n as [|n IH]; simpl; auto. Qed.

Lemma default_range_inv s r :
  default_range s = Some r ->
  exists h w m,
    image_plane_widget_z (self s) = Some h /\ widgets (scene s) !! h = Some w /\
    luts (scene s) !! lut w = Some m /\ default_data_range m = r.
Proof.
  unfold default_range, z_lut_manager.
  destruct (image_plane_widget_z (self s)) as [h|]; [|discriminate].
  destruct (widgets (scene s) !! h) as [w|] eqn:Hw; [|discriminate].
  destruct (luts (scene s) !! lut w) as [m|] eqn:Hm; [|discriminate].
  intros [= <-]. eauto 10.
Qed.

(** The handler returns, leaves [self] as it is, and its only effect on the
    LUT manager of the z widget is to switch the default range off and to
    store the display range. *)
Lemma on_cut_brightness_contrast_spec s data_low data_high :
  handles_live s ->
  default_range s = Some (data_low, data_high) ->
  exists s',
    _on_cut_brightness_contrast s = Return tt s' /\
    self s' = self s /\
    z_lut_manager s' =
      (fun m => set_data_range
                  (display_range data_low data_high
                     (cut_brightness (self s)) (cut_contrast (self s)))
                  (set_use_default_range false m)) <$> z_lut_manager s.
Proof.
  intros Hlive (h & w & m & Hz & Hw & Hm & Hr)%default_range_inv.
  eexists. split; [apply (on_cut_brightness_contrast_run s h w m); assumption|].
  set (s1 := rerange _ _ _ s).
  pose proof (foldl_step_self (touch count_render) (touch_self count_render)
                (image_plane_widgets (self s)) s1) as Hself.
  pose proof (foldl_step_luts (touch count_render) (touch_luts count_render)
                (image_plane_widgets (self s)) s1) as Hluts.
  pose proof (foldl_step_widgets (touch count_render) count_render
                (lookup_touch count_render)
                (image_plane_widgets (self s)) s1 h) as Hws.
  split; [exact Hself|].
  unfold z_lut_manager. rewrite Hself.
  change (self s1) with (self s). rewrite Hz, Hws, Hluts.
  change (widgets (scene s1)) with (widgets (scene s)). rewrite Hw. simpl.
  rewrite iter_count_render_lut.
  rewrite !list_lookup_alter_eq, Hm. simpl. rewrite Hr. reflexivity.
Qed.

(** ** The brightness/contrast mapping computes the specified range *)

(** C1.  When the z cut-plane widget is attached and its lookup-table
    manager reports the default data range [(data_low, data_high)], the
    brightness/contrast handler returns and leaves [(L - R, L + R)] as the
    active display range, with [level = (data_low + data_high) / 2],
    [radius = (data_high - data_low) / 2], [L = level - radius * b] and
    [R = radius * 2 ^ (- c)], all computed in the arithmetic of the program.
    The statement holds for every stored brightness [b] and contrast [c], in
    particular for those in [-1, 1]. *)
Theorem brightness_contrast_sets_display_range s h w m data_low data_high :
  image_plane_widget_z (self s) = Some h ->
  widgets (scene s) !! h = Some w ->
  luts (scene s) !! lut w = Some m ->
  default_data_range m = (data_low, data_high) ->
  handles_live s ->
  let b := cut_brightness (self s) in
  let c := cut_contrast (self s) in
  let level := fdiv (fadd data_low data_high) f2 in
  let radius := fdiv (fsub data_high data_low) f2 in
  let L := fsub level (fmul radius b) in
  let R := fmul radius (fpow f2 (fneg c)) in
  exists s',
    _on_cut_brightness_contrast s = Return tt s' /\
    active_range s' = Some (fsub L R, fadd L R).
Proof.
  intros Hz Hw Hm Hr Hlive b c level radius L R.
  assert (Hd : default_range s = Some (data_low, data_high)).
  { unfold default_range, z_lut_manager. rewrite Hz, Hw, Hm. simpl. congruence. }
  destruct (on_cut_brightness_contrast_spec s data_low data_high Hlive Hd)
    as (s' & Hrun & _ & Hlut).
  exists s'. split; [exact Hrun|].
  unfold active_range. rewrite Hlut.
  unfold z_lut_manager. rewrite Hz, Hw, Hm. reflexivity.
Qed.

(** ** Opacity propagation *)

Lemma live_lookup sc ipw h :
  live sc ipw -> ipw = Some h -> exists w, widgets sc !! h = Some w.
Proof. intros Hl ->. apply lookup_lt_is_Some_2 in Hl as [w Hw]. eauto. Qed.

(** Run with an opacity the toolkit accepts, the handler returns;
    afterwards every attached widget (x, y, z) has [alpha] as its
    texture-plane opacity and has been asked to redraw at least once more;
    when no widget is attached the state is unchanged. *)
Lemma slicer_alpha_changed_effect (alpha : F) s :
  handles_live s ->
  refused f0 f1 alpha = false ->
  exists s',
    _slicer_alpha_changed alpha s = Return tt s' /\
    self s' = self s /\
    (forall h, Some h ∈ image_plane_widgets (self s) ->
       exists w w',
         widgets (scene s) !! h = Some w /\
         widgets (scene s') !! h = Some w' /\
         opacity w' = alpha /\ renders w < renders w') /\
    (image_plane_widgets (self s) = [None; None; None] -> s' = s).
Proof.
  intros Hlive Hok.
  eexists. split; [apply slicer_alpha_changed_run; assumption|].
  split.
  { apply foldl_step_self. intros a s0. unfold paint_step.
    rewrite !touch_self. reflexivity. }
  split.
  - intros h Hin.
    assert (Hh : live (scene s) (Some h)).
    { unfold handles_live in Hlive. rewrite Forall_forall in Hlive. auto. }
    destruct (live_lookup _ _ h Hh eq_refl) as [w Hw].
    pose proof (foldl_step_widgets (paint_step alpha) (paint alpha)
                  (paint_step_widgets alpha) (image_plane_widgets (self s)) s h)
      as Hfin.
    rewrite Hw in Hfin.
    pose proof (hits_member h _ Hin) as Hpos.
    destruct (hits h (image_plane_widgets (self s))) as [|n]; [lia|].
    exists w, (Nat.iter (S n) (paint alpha) w).
    split; [exact Hw|]. split; [exact Hfin|].
    split; [apply iter_paint_opacity|].
    rewrite iter_paint_renders. lia.
  - intros ->. reflexivity.
Qed.

(** C10.  Whatever subset of the three handles [x], [y], [z] is attached,
    the slicer-opacity handler, run with an opacity in [0, 1] (the values
    the [slicer_alpha] trait notifies it with), returns without raising:
    the guard skips the [None] handles, on which an attribute access would
    raise.  It writes the opacity of exactly the attached widgets: an
    attached widget ends with opacity [alpha] and its other attributes as
    before, a widget that is not attached is left as it was, and nothing
    else in the scene or the object changes. *)
Theorem slicer_alpha_total_under_partial_attachment (alpha : F) s x y z :
  image_plane_widgets (self s) = [x; y; z] ->
  live (scene s) x -> live (scene s) y -> live (scene s) z ->
  in_range f0 f1 alpha = true ->
  exists s',
    _slicer_alpha_changed alpha s = Return tt s' /\
    self s' = self s /\
    luts (scene s') = luts (scene s) /\
    children (scene s') = children (scene s) /\
    length (widgets (scene s')) = length (widgets (scene s)) /\
    forall k w, widgets (scene s) !! k = Some w ->
      (Some k ∈ [x; y; z] ->
         exists w', widgets (scene s') !! k = Some w' /\ opacity w' = alpha /\
           source w' = source w /\ plane_orientation w' = plane_orientation w /\
           lut w' = lut w /\ visible w' = visible w) /\
      (Some k ∉ [x; y; z] -> widgets (scene s') !! k = Some w).
Proof.
  intros Hxyz Hx Hy Hz Hrange.
  pose proof (in_range_not_refused _ _ _ Hrange) as Hok.
  assert (Hlive : handles_live s).
  { unfold handles_live. rewrite Hxyz. repeat constructor; assumption. }
  assert (Hself : forall a s0, self (paint_step alpha a s0) = self s0).
  { intros a s0. unfold paint_step. rewrite !touch_self. reflexivity. }
  assert (Hluts : forall a s0,
            luts (scene (paint_step alpha a s0)) = luts (scene s0)).
  { intros a s0. unfold paint_step. rewrite !touch_luts. reflexivity. }
  assert (Hchildren : forall a s0,
            children (scene (paint_step alpha a s0)) = children (scene s0)).
  { intros a s0. unfold paint_step. rewrite !touch_children. reflexivity. }
  eexists. split; [apply slicer_alpha_changed_run; assumption|].
  rewrite Hxyz.
  split; [apply foldl_step_self, Hself|].
  split; [apply foldl_step_luts, Hluts|].
  split; [apply foldl_step_children, Hchildren|].
  split; [apply (foldl_step_length _ _ (paint_step_widgets alpha))|].
  intros k w Hw.
  rewrite (foldl_step_widgets (paint_step alpha) (paint alpha)
             (paint_step_widgets alpha)), Hw.
  split.
  - intros Hin. pose proof (hits_member k _ Hin) as Hpos.
    destruct (hits k [x; y; z]) as [|n]; [lia|].
    exists (Nat.iter (S n) (paint alpha) w).
    split; [reflexivity|]. split; [apply iter_paint_opacity|].
    apply (iter_paint_frame alpha (S n) w).
  - intros Hnin. rewrite (hits_not_member k _ Hnin). reflexivity.
Qed.

(** ** Attachment *)

Lemma find_child_None v (cs : list (@DataNode F)) i :
  (forall child, child ∈ cs -> v ∉ outputs child) -> find_child v cs i = None.
Proof.
  revert i. induction cs as [|c cs IH]; intros i Hall; [reflexivity|].
  simpl. rewrite bool_decide_eq_false_2 by (apply Hall; left).
  apply IH. intros child Hin. apply Hall. right. exact Hin.
Qed.

Lemma find_child_None_inv v (cs : list (@DataNode F)) i :
  find_child v cs i = None -> forall child, child ∈ cs -> v ∉ outputs child.
Proof.
  revert i. induction cs as [|c cs IH]; intros i Hnone child Hin.
  - apply elem_of_nil in Hin as [].
  - simpl in Hnone. destruct (bool_decide_reflect (v ∈ outputs c)); [discriminate|].
    apply elem_of_cons in Hin as [->|Hin]; [assumption | eauto].
Qed.

Lemma find_child_Some v (cs : list (@DataNode F)) i j :
  find_child v cs i = Some j ->
  i <= j /\ exists nd, cs !! (j - i) = Some nd /\ v ∈ outputs nd.
Proof.
  revert i. induction cs as [|c cs IH]; intros i Hsome; [discriminate|].
  simpl in Hsome. destruct (bool_decide_reflect (v ∈ outputs c)) as [Hin|_].
  - injection Hsome as <-. split; [lia|]. rewrite Nat.sub_diag. eauto.
  - apply IH in Hsome as (Hle & nd & Hnd & Hv). split; [lia|].
    exists nd. replace (j - i) with (S (j - S i)) by lia. auto.
Qed.

(** C4.  When no top-level data node of the scene has the volume actor's
    mapper input among its outputs, [add_actors_to_scene] returns without
    raising and changes nothing: the three widget handles are what they
    were, so an unattached object stays unattached. *)
Theorem add_actors_absent_volume_is_noop (volume_actor : VolumeActor) s :
  (forall child, child ∈ children (scene s) ->
     mapper_input volume_actor ∉ outputs child) ->
  add_actors_to_scene volume_actor s = Return tt s.
Proof.
  intros Habsent. unfold add_actors_to_scene, bind, get.
  unfold _find_volume_data_source. simpl.
  rewrite (find_child_None _ _ 0 Habsent). reflexivity.
Qed.

Lemma plug_run {A} data_source orientation (k : handle -> @Py F A) s nd :
  scene_wf (scene s) ->
  children (scene s) !! data_source = Some nd ->
  (ipw <~ image_plane_widget data_source orientation ;;
   lm <~ scalar_lut_manager (Some ipw) ;;
   update_lut lm.1 (set_lut_mode "gray") ;;;
   update_widget (Some ipw) (set_visible false) ;;;
   k ipw) s
  = k (length (widgets (scene s))) (plug data_source orientation s).
Proof.
  intros Hwf Hnd.
  unfold plug. rewrite Hnd.
  unfold image_plane_widget, the_module_manager, bind, get, modify, ret.
  rewrite Hnd.
  destruct (module_manager nd) as [l|] eqn:Hmm; simpl.
  - destruct (lookup_lt_is_Some_2 (luts (scene s)) l) as [m Hm].
    { eapply node_lut_live; eauto. }
    unfold scalar_lut_manager, the_widget, bind, get, ret. simpl.
    rewrite list_lookup_middle by reflexivity. simpl. rewrite Hm.
    unfold update_lut, bind, get, modify. simpl. rewrite Hm.
    unfold update_widget, the_widget, bind, get, modify, ret. simpl.
    rewrite list_lookup_middle by reflexivity. reflexivity.
  - unfold scalar_lut_manager, the_widget, bind, get, ret. simpl.
    rewrite list_lookup_middle by reflexivity. simpl.
    rewrite list_lookup_middle by reflexivity.
    unfold update_lut, bind, get, modify. simpl.
    rewrite list_lookup_middle by reflexivity.
    unfold update_widget, the_widget, bind, get, modify, ret. simpl.
    rewrite list_lookup_middle by reflexivity. reflexivity.
Qed.

Lemma plug_self data_source orientation s :
  self (plug data_source orientation s) = self s.
Proof. unfold plug. destruct (children (scene s) !! data_source); reflexivity. Qed.

Lemma plug_widgets data_source orientation s nd h w :
  children (scene s) !! data_source = Some nd ->
  widgets (scene (plug data_source orientation s)) !! h = Some w ->
  (widgets (scene s) !! h = Some w) \/
  (h = length (widgets (scene s)) /\
   lut w = match module_manager nd with
           | Some l => l
           | None => length (luts (scene s))
           end).
Proof.
  intros Hnd. unfold plug. rewrite Hnd. simpl.
  rewrite list_lookup_alter.
  destruct (decide (length (widgets (scene s)) = h)) as [<-|Hne].
  - rewrite list_lookup_middle by reflexivity. simpl. intros [= <-]. right. auto.
  - intros [Hw|[Hge Hw]]%lookup_app_Some; [left; exact Hw|].
    destruct (h - length (widgets (scene s))) as [|d] eqn:Hd; [lia|].
    discriminate.
Qed.

Lemma plug_length_widgets data_source orientation s nd :
  children (scene s) !! data_source = Some nd ->
  length (widgets (scene (plug data_source orientation s))) =
  S (length (widgets (scene s))).
Proof.
  intros Hnd. unfold plug. rewrite Hnd. simpl.
  rewrite length_alter, length_app. simpl. lia.
Qed.

Lemma plug_length_children data_source orientation s :
  length (children (scene (plug data_source orientation s))) =
  length (children (scene s)).
Proof.
  unfold plug. destruct (children (scene s) !! data_source) as [nd|]; [|reflexivity].
  simpl. destruct (module_manager nd); [reflexivity | apply length_insert].
Qed.

Lemma plug_wf data_source orientation s nd :
  scene_wf (scene s) ->
  children (scene s) !! data_source = Some nd ->
  scene_wf (scene (plug data_source orientation s)).
Proof.
  intros Hwf Hnd.
  assert (Hluts : length (luts (scene (plug data_source orientation s))) =
                  match module_manager nd with
                  | Some _ => length (luts (scene s))
                  | None => S (length (luts (scene s)))
                  end).
  { unfold plug. rewrite Hnd. simpl. rewrite length_alter.
    destruct (module_manager nd); [reflexivity|]. rewrite length_app. simpl. lia. }
  split.
  - intros h w Hw. rewrite Hluts.
    destruct (plug_widgets _ _ _ _ _ _ Hnd Hw) as [Hold|[_ ->]].
    + pose proof (widget_lut_live _ Hwf _ _ Hold).
      destruct (module_manager nd); lia.
    + destruct (module_manager nd) as [l|] eqn:Hmm; [|lia].
      eapply node_lut_live; eauto.
  - intros i nd' l Hi Hl. rewrite Hluts.
    unfold plug in Hi. rewrite Hnd in Hi. simpl in Hi.
    destruct (module_manager nd) as [l0|] eqn:Hmm.
    + eapply node_lut_live; eauto.
    + apply list_lookup_insert_Some in Hi as [(<- & <- & _)|[Hne Hi]].
      * simpl in Hl. injection Hl as <-. lia.
      * pose proof (node_lut_live _ Hwf _ _ _ Hi Hl). lia.
Qed.

(** The handler always returns on a well-formed state, and keeps the shape
    of the scene. *)
Lemma on_cut_brightness_contrast_total s :
  scene_wf (scene s) -> handles_live s ->
  exists s',
    _on_cut_brightness_contrast s = Return tt s' /\
    self s' = self s /\
    children (scene s') = children (scene s) /\
    length (widgets (scene s')) = length (widgets (scene s)) /\
    length (luts (scene s')) = length (luts (scene s)) /\
    forall k, lut <$> widgets (scene s') !! k = lut <$> widgets (scene s) !! k.
Proof.
  intros Hwf Hlive.
  destruct (image_plane_widget_z (self s)) as [h|] eqn:Hz.
  - assert (Hh : live (scene s) (Some h)).
    { unfold handles_live in Hlive. rewrite Forall_forall in Hlive.
      apply Hlive. rewrite <- Hz. unfold image_plane_widgets.
      do 2 right. left. }
    destruct (live_lookup _ _ h Hh eq_refl) as [w Hw].
    destruct (lookup_lt_is_Some_2 (luts (scene s)) (lut w)) as [m Hm].
    { eapply widget_lut_live; eauto. }
    eexists. split; [apply (on_cut_brightness_contrast_run s h w m); assumption|].
    set (s1 := rerange _ _ _ s).
    split; [rewrite (foldl_step_self _ (touch_self count_render)); reflexivity|].
    split; [rewrite (foldl_step_children _ (touch_children count_render));
            reflexivity|].
    split; [rewrite (foldl_step_length _ _ (lookup_touch count_render));
            reflexivity|].
    split.
    + rewrite (foldl_step_luts _ (touch_luts count_render)).
      unfold s1, rerange. simpl. rewrite !length_alter. reflexivity.
    + intros k.
      rewrite (foldl_step_widgets _ _ (lookup_touch count_render)).
      change (widgets (scene s1)) with (widgets (scene s)).
      destruct (widgets (scene s) !! k) as [w0|]; simpl; [|reflexivity].
      rewrite iter_count_render_lut. reflexivity.
  - exists s. rewrite on_cut_brightness_contrast_unattached by assumption. auto 10.
Qed.

Lemma scene_wf_transport sc sc' :
  scene_wf sc ->
  children sc' = children sc ->
  length (luts sc') = length (luts sc) ->
  (forall k, lut <$> widgets sc' !! k = lut <$> widgets sc !! k) ->
  scene_wf sc'.
Proof.
  intros Hwf Hc Hl Hw. split.
  - intros h w Hh. specialize (Hw h). rewrite Hh in Hw. simpl in Hw.
    destruct (widgets sc !! h) as [w0|] eqn:Hw0; [|discriminate].
    injection Hw as ->. rewrite Hl. eapply widget_lut_live; eauto.
  - intros i nd l Hi Hmm. rewrite Hc in Hi. rewrite Hl.
    eapply node_lut_live; eauto.
Qed.

Lemma store_ipw_live a s1 (n : handle) :
  handles_live s1 -> n < length (widgets (scene s1)) ->
  handles_live (with_self (store_ipw a (Some n) (self s1)) s1).
Proof.
  unfold handles_live, image_plane_widgets. intros Hlive Hn.
  apply Forall_cons in Hlive as [Hx Hlive].
  apply Forall_cons in Hlive as [Hy Hlive].
  apply Forall_cons in Hlive as [Hz _].
  destruct a; simpl; repeat constructor; assumption.
Qed.

Lemma handles_live_mono s s' :
  handles_live s -> self s' = self s ->
  length (widgets (scene s)) <= length (widgets (scene s')) ->
  handles_live s'.
Proof.
  unfold handles_live. intros Hlive -> Hle.
  eapply Forall_impl; [exact Hlive|].
  intros [h|]; simpl; [lia | trivial].
Qed.

(** One pass of the loop of [add_actors_to_scene]. *)
Lemma attach_axis_run data_source a s :
  scene_wf (scene s) -> handles_live s ->
  data_source < length (children (scene s)) ->
  exists s',
    (ipw <~ image_plane_widget data_source (axis_name a +:+ "_axes") ;;
     lm <~ scalar_lut_manager (Some ipw) ;;
     update_lut lm.1 (set_lut_mode "gray") ;;;
     update_widget (Some ipw) (set_visible false) ;;;
     setattr_ipw a (Some ipw)) s = Return tt s' /\
    scene_wf (scene s') /\ handles_live s' /\
    length (children (scene s')) = length (children (scene s)) /\
    getattr_ipw a (self s') = Some (length (widgets (scene s))) /\
    forall b, b <> a -> getattr_ipw b (self s') = getattr_ipw b (self s).
Proof.
  intros Hwf Hlive Hds.
  destruct (lookup_lt_is_Some_2 _ _ Hds) as [nd Hnd].
  rewrite (plug_run _ _ (fun i : handle => setattr_ipw a (Some i)) s nd Hwf Hnd).
  set (o := axis_name a +:+ "_axes").
  set (s1 := plug data_source o s).
  set (n := length (widgets (scene s))).
  set (s2 := with_self (store_ipw a (Some n) (self s1)) s1).
  assert (Hwf1 : scene_wf (scene s1)) by (eapply plug_wf; eauto).
  assert (Hlen1 : length (widgets (scene s1)) = S n)
    by (eapply plug_length_widgets; eauto).
  assert (Hself1 : self s1 = self s) by apply plug_self.
  assert (Hlive1 : handles_live s1).
  { apply (handles_live_mono s); [assumption | assumption | lia]. }
  assert (Hlive2 : handles_live s2) by (apply store_ipw_live; [assumption | lia]).
  assert (Hget : getattr_ipw a (self s2) = Some n) by (destruct a; reflexivity).
  assert (Hframe : forall b, b <> a ->
            getattr_ipw b (self s2) = getattr_ipw b (self s)).
  { intros b Hb. unfold s2. simpl. rewrite Hself1.
    destruct a, b; try reflexivity; congruence. }
  assert (Hpost2 : scene_wf (scene s2) /\ handles_live s2 /\
            length (children (scene s2)) = length (children (scene s)) /\
            getattr_ipw a (self s2) = Some n /\
            forall b, b <> a -> getattr_ipw b (self s2) = getattr_ipw b (self s)).
  { split; [exact Hwf1|]. split; [exact Hlive2|].
    split; [apply plug_length_children|]. split; assumption. }
  assert (Hrun : setattr_ipw a (Some n) s1 = Return tt s2 \/
                 setattr_ipw a (Some n) s1 = _on_cut_brightness_contrast s2).
  { unfold setattr_ipw, bind, get, modify. simpl.
    destruct a; simpl; auto.
    destruct (bool_decide _); auto. }
  destruct Hrun as [-> | ->]; [exists s2; split; [reflexivity | exact Hpost2]|].
  destruct (on_cut_brightness_contrast_total s2 Hwf1 Hlive2)
    as (s' & Hrun & Hself & Hchildren & Hlen & Hluts & Hlut).
  exists s'. split; [exact Hrun|].
  destruct Hpost2 as (_ & _ & Hc2 & Hg2 & Hf2).
  split; [eapply scene_wf_transport; eauto|].
  split; [apply (handles_live_mono s2); [assumption | assumption | lia]|].
  rewrite Hself, Hchildren. auto.
Qed.

(** C5.  Started on an object with no widget attached, one call of
    [add_actors_to_scene] returns, and afterwards either the data source was
    not found and all three handles are still [None], or it was found and
    all three handles are attached, each to a widget of the scene; no strict
    subset is ever attached. *)
Theorem add_actors_attaches_all_or_none (volume_actor : VolumeActor) s :
  scene_wf (scene s) ->
  image_plane_widgets (self s) = [None; None; None] ->
  exists s',
    add_actors_to_scene volume_actor s = Return tt s' /\
    ((_find_volume_data_source (scene s) volume_actor = None /\
      image_plane_widgets (self s') = [None; None; None]) \/
     (exists data_source hx hy hz,
        _find_volume_data_source (scene s) volume_actor = Some data_source /\
        image_plane_widgets (self s') = [Some hx; Some hy; Some hz] /\
        handles_live s')).
Proof.
  intros Hwf Hnone.
  assert (Hlive : handles_live s).
  { unfold handles_live. rewrite Hnone. repeat constructor. }
  unfold add_actors_to_scene, bind at 1, get.
  destruct (_find_volume_data_source (scene s) volume_actor) as [ds|] eqn:Hfind.
  - assert (Hds : ds < length (children (scene s))).
    { unfold _find_volume_data_source in Hfind.
      apply find_child_Some in Hfind as (_ & nd & Hnd & _).
      rewrite Nat.sub_0_r in Hnd. eapply lookup_lt_Some; eauto. }
    set (body := fun axis : Axis => _).
    change (for_ xyz body) with (body AxisX ;;; body AxisY ;;; body AxisZ ;;; ret tt).
    destruct (attach_axis_run ds AxisX s Hwf Hlive Hds)
      as (s1 & Hrun1 & Hwf1 & Hlive1 & Hc1 & Hx1 & Hf1).
    destruct (attach_axis_run ds AxisY s1 Hwf1 Hlive1 ltac:(lia))
      as (s2 & Hrun2 & Hwf2 & Hlive2 & Hc2 & Hy2 & Hf2).
    destruct (attach_axis_run ds AxisZ s2 Hwf2 Hlive2 ltac:(lia))
      as (s3 & Hrun3 & Hwf3 & Hlive3 & Hc3 & Hz3 & Hf3).
    exists s3. split.
    + unfold bind. unfold body at 1. rewrite Hrun1.
      unfold body at 1. rewrite Hrun2. unfold body. rewrite Hrun3. reflexivity.
    + right. exists ds. do 3 eexists. split; [reflexivity|].
      split; [|exact Hlive3].
      unfold image_plane_widgets.
      change (image_plane_widget_x (self s3)) with (getattr_ipw AxisX (self s3)).
      change (image_plane_widget_y (self s3)) with (getattr_ipw AxisY (self s3)).
      change (image_plane_widget_z (self s3)) with (getattr_ipw AxisZ (self s3)).
      rewrite Hz3, (Hf3 AxisX), (Hf3 AxisY), (Hf2 AxisX), Hx1, Hy2 by discriminate.
      reflexivity.
  - exists s. split; [reflexivity|]. left. auto.
Qed.

End Facts.

(** ** The [Range] traits *)

Section Traits.
Context {F : Type} {ops : FloatOps F} {ord : FloatOrder F}.

Lemma assign_refused (t : RangeTrait) (value : F) (s : @State F) :
  refused (trait_low t) (trait_high t) value = true ->
  assign t value s = Raise TraitError s.
Proof.
  unfold refused, trait_low, trait_high. intros Hout.
  destruct t; simpl;
    unfold set_slicer_alpha, set_cut_brightness, set_cut_contrast,
      range_validate, bind;
    rewrite Hout; reflexivity.
Qed.

(** An assignment that returned stored a value the validator let through. *)
Lemma returned_assignment_not_refused (t : RangeTrait) (value : F)
    (s s' : @State F) :
  assign t value s = Return tt s' ->
  refused (trait_low t) (trait_high t) value = false.
Proof.
  intros Hret. destruct (refused _ _ value) eqn:Hout; [|reflexivity].
  rewrite (assign_refused t value s Hout) in Hret. discriminate.
Qed.

(** An accepted assignment: the value is stored, and the trait's handler
    runs unless the stored value compares equal to the one before. *)
Lemma assign_accepted_run (t : RangeTrait) (v : F) (s : @State F) :
  refused (trait_low t) (trait_high t) v = false ->
  assign t v s =
  if feq (trait_value t (self s)) v then Return tt (stored t v s)
  else match t with
       | SlicerAlpha => _slicer_alpha_changed v (stored t v s)
       | _ => _on_cut_brightness_contrast (stored t v s)
       end.
Proof.
  unfold refused, trait_low, trait_high. intros Hok.
  destruct t; simpl;
    unfold set_slicer_alpha, set_cut_brightness, set_cut_contrast,
      range_validate, bind, get, modify, ret;
    rewrite Hok; simpl; destruct (feq _ _); reflexivity.
Qed.

(** C6, amended.  An assignment to [slicer_alpha] of a value in [0, 1]
    returns and stores the value.  When the value compares unequal to the
    one stored before, every attached widget (x, y, z) ends with the value
    as its texture-plane opacity and has been asked to redraw at least once
    more.  When it compares equal, nobody is notified and the scene stays as
    it was.  When no widget is attached the scene stays as it was. *)
Theorem assigned_slicer_alpha_reaches_attached_widgets (alpha : F)
    (s : @State F) :
  handles_live s ->
  in_range f0 f1 alpha = true ->
  exists s',
    assign SlicerAlpha alpha s = Return tt s' /\
    slicer_alpha (self s') = alpha /\
    (feq (slicer_alpha (self s)) alpha = false ->
     forall h, Some h ∈ image_plane_widgets (self s) ->
       exists w w',
         widgets (scene s) !! h = Some w /\
         widgets (scene s') !! h = Some w' /\
         opacity w' = alpha /\ renders w < renders w') /\
    (feq (slicer_alpha (self s)) alpha = true -> scene s' = scene s) /\
    (image_plane_widgets (self s) = [None; None; None] -> scene s' = scene s).
Proof.
  intros Hlive Hrange.
  pose proof (in_range_not_refused _ _ _ Hrange) as Hok.
  rewrite (assign_accepted_run SlicerAlpha alpha s Hok).
  cbn [trait_value].
  destruct (feq (slicer_alpha (self s)) alpha).
  - exists (stored SlicerAlpha alpha s). split; [reflexivity|].
    split; [reflexivity|]. split; [discriminate|]. split; reflexivity.
  - destruct (slicer_alpha_changed_effect alpha (stored SlicerAlpha alpha s)
                Hlive Hok) as (s' & Hrun & Hself & Hall & Hnone).
    exists s'. split; [exact Hrun|].
    split; [rewrite Hself; reflexivity|].
    split; [intros _; exact Hall|]. split; [discriminate|].
    intros Hno. rewrite (Hnone Hno). reflexivity.
Qed.

(** C8, amended.  An assignment to [slicer_alpha], [cut_brightness] or
    [cut_contrast] of a value below the lower bound or above the upper bound
    of the trait is refused at the assignment: it raises [TraitError] and
    leaves the whole state as it was, so neither handler runs and the value
    reaches neither the display range nor a widget's opacity.  The value is
    not clamped. *)
Theorem assignment_below_or_above_range_is_rejected (t : RangeTrait)
    (value : F) (s : @State F) :
  refused (trait_low t) (trait_high t) value = true ->
  assign t value s = Raise TraitError s.
Proof. apply assign_refused. Qed.

End Traits.

(** ** The active range after the handler *)

Section Recompute.
Context {F : Type} {ops : FloatOps F}.

(** The handler returns with the display range of the specification as the
    active range. *)
Lemma recompute_active_range (s : @State F) data_low data_high :
  handles_live s ->
  default_range s = Some (data_low, data_high) ->
  exists s',
    _on_cut_brightness_contrast s = Return tt s' /\
    active_range s' =
      Some (display_range data_low data_high
              (cut_brightness (self s)) (cut_contrast (self s))).
Proof.
  intros Hlive Hd.
  destruct (on_cut_brightness_contrast_spec s data_low data_high Hlive Hd)
    as (s' & Hrun & _ & Hlut).
  exists s'. split; [exact Hrun|].
  unfold active_range. rewrite Hlut.
  unfold default_range in Hd.
  destruct (z_lut_manager s) as [m|]; [reflexivity | discriminate].
Qed.

End Recompute.

(** ** The mapping in exact arithmetic *)

Section Exact.
#[local] Existing Instance exact.
Open Scope R_scope.
Implicit Types (s : @State R).

Lemma exact_display_range lo hi b c :
  display_range lo hi b c =
  (((lo + hi) / 2 - (hi - lo) / 2 * b) - (hi - lo) / 2 * Rpower 2 (- c),
   ((lo + hi) / 2 - (hi - lo) / 2 * b) + (hi - lo) / 2 * Rpower 2 (- c)).
Proof. reflexivity. Qed.

Lemma Rpower_2_0 : Rpower 2 (- 0) = 1.
Proof. rewrite Ropp_0. apply Rpower_O. lra. Qed.

Lemma Rpower_2_pos c : 0 < Rpower 2 c.
Proof. unfold Rpower. apply exp_pos. Qed.

Lemma Rpower_2_lt c d : c < d -> Rpower 2 c < Rpower 2 d.
Proof. intros Hcd. apply Rpower_lt; lra. Qed.

Lemma exact_identity lo hi : display_range lo hi 0 0 = (lo, hi).
Proof.
  rewrite exact_display_range, Rpower_2_0. f_equal; lra.
Qed.

Lemma exact_width lo hi b c :
  width (display_range lo hi b c) = (hi - lo) * Rpower 2 (- c).
Proof. rewrite exact_display_range. unfold width. simpl. lra. Qed.

Lemma exact_center lo hi b c :
  center (display_range lo hi b c) = (lo + hi) / 2 - (hi - lo) / 2 * b.
Proof. rewrite exact_display_range. unfold center. simpl. lra. Qed.

Lemma exact_ordered lo hi b c :
  lo <= hi -> (display_range lo hi b c).1 <= (display_range lo hi b c).2.
Proof.
  intros Hle. rewrite exact_display_range. simpl.
  pose proof (Rpower_2_pos (- c)) as Hp.
  assert (0 <= (hi - lo) / 2 * Rpower 2 (- c)); [|lra].
  apply Rmult_le_pos; lra.
Qed.

End Exact.

(** ** The mapping in binary64 arithmetic *)

Section Binary64.
Variable libm_pow : float -> float -> float.
Open Scope float_scope.

(** With contrast zero the C library is not consulted: [pow(2, -0.0)] is
    [1.0]. *)
Lemma binary64_display_range_contrast_0 (lo hi b : float) :
  display_range (ops := binary64 libm_pow) lo hi b 0 =
  (((lo + hi) / 2 - (hi - lo) / 2 * b) - (hi - lo) / 2 * 1,
   ((lo + hi) / 2 - (hi - lo) / 2 * b) + (hi - lo) / 2 * 1).
Proof. reflexivity. Qed.

(** With another contrast the mapping uses whatever the C library
    answers. *)
Lemma binary64_display_range_contrast_1 (lo hi b : float) :
  display_range (ops := binary64 libm_pow) lo hi b 1 =
  (((lo + hi) / 2 - (hi - lo) / 2 * b) - (hi - lo) / 2 * libm_pow 2 (-1),
   ((lo + hi) / 2 - (hi - lo) / 2 * b) + (hi - lo) / 2 * libm_pow 2 (-1)).
Proof. reflexivity. Qed.

Lemma identity_checked :
  forallb (fun lo => forallb (identity_check libm_pow lo) (seqZ 0 256))
    (seqZ 0 256) = true.
Proof. vm_compute. reflexivity. Qed.

Lemma binary64_identity_8bit (lo hi : Z) :
  (0 <= lo <= 255)%Z -> (0 <= hi <= 255)%Z ->
  display_range (ops := binary64 libm_pow) (Z2f lo) (Z2f hi) 0 0 =
  (Z2f lo, Z2f hi).
Proof.
  intros Hlo Hhi.
  pose proof identity_checked as Hall.
  rewrite forallb_forall in Hall.
  assert (Hin : forall z, (0 <= z <= 255)%Z -> In z (seqZ 0 256)).
  { intros z Hz. apply list_elem_of_In, elem_of_seqZ. lia. }
  specialize (Hall lo (Hin lo Hlo)). rewrite forallb_forall in Hall.
  specialize (Hall hi (Hin hi Hhi)). unfold identity_check in Hall.
  apply andb_prop in Hall as [H1 H2].
  apply FloatAxioms.Leibniz.eqb_spec in H1, H2.
  destruct (display_range _ _ _ _) as [r1 r2]. simpl in *. congruence.
Qed.

End Binary64.

(** ** Facts about the concrete scenes *)

Section Scenes.
Context {F : Type} {ops : FloatOps F}.

Lemma attached_state_live (r : F * F) b c : handles_live (attached_state r b c).
Proof. repeat constructor. Qed.

Lemma attached_state_default_range (r : F * F) b c :
  default_range (attached_state r b c) = Some r.
Proof. reflexivity. Qed.

Lemma fresh_scene_wf (r : F * F) : scene_wf (fresh_scene r).
Proof.
  split.
  - intros h w Hw. destruct h; discriminate.
  - intros [|i] nd l Hnd Hl; [|destruct i; discriminate].
    injection Hnd as <-. discriminate.
Qed.

(** The active range a run of the handler leaves is the display range. *)
Lemma active_range_of_run (s s' : @State F) lo hi r :
  handles_live s ->
  default_range s = Some (lo, hi) ->
  _on_cut_brightness_contrast s = Return tt s' ->
  active_range s' = Some r ->
  r = display_range lo hi (cut_brightness (self s)) (cut_contrast (self s)).
Proof.
  intros Hlive Hd Hrun Hr.
  destruct (recompute_active_range s lo hi Hlive Hd) as (s'' & Hrun' & Hr').
  rewrite Hrun in Hrun'. injection Hrun' as <-. congruence.
Qed.

End Scenes.

(** Attaching to the fresh scene reaches the attached scene, with one redraw
    requested of each widget by the handler that the assignment of the z
    handle triggers. *)
Example attach_fresh_scene :
  exists s',
    add_actors_to_scene (ops := exact) {| mapper_input := 0 |}
      (fresh_state (ops := exact) (0, 255)%R) = Return tt s' /\
    self s' = self (attached_state (ops := exact) (0, 255)%R 0%R 0%R) /\
    children (scene s') = children (attached_scene (ops := exact) (0, 255)%R) /\
    widgets (scene s') =
      count_render <$> widgets (attached_scene (ops := exact) (0, 255)%R) /\
    default_range s' = Some (0, 255)%R.
Proof. eexists. split; [vm_compute; reflexivity|]. repeat split. Qed.

(** ** The identity at brightness 0 and contrast 0 *)

(** What the binary64 code leaves for the default range [(1, 2^53)] at
    brightness 0 and contrast 0: the sum [1 + 2^53] rounds to [2^53], so the
    lower end comes out as [0.5]. *)
Example binary64_zero_settings_on_wide_range (libm : float -> float -> float) :
  exists s',
    _on_cut_brightness_contrast (ops := binary64 libm)
      (attached_state (ops := binary64 libm)
         (1, 9007199254740992)%float 0%float 0%float) = Return tt s' /\
    active_range s' = Some (0.5, 9007199254740992)%float.
Proof. eexists. split; vm_compute; reflexivity. Qed.

(** C2, as stated, fails on the binary64 code: with the default range
    [(1.0, 9007199254740992.0)], brightness 0 and contrast 0, no C library
    makes the handler leave the default range as the active range (it leaves
    [(0.5, 9007199254740992.0)]). *)
Lemma zero_settings_do_not_reproduce_wide_range :
  ~ exists (libm : float -> float -> float) s',
      _on_cut_brightness_contrast (ops := binary64 libm)
        (attached_state (ops := binary64 libm)
           (1, 9007199254740992)%float 0%float 0%float) = Return tt s' /\
      active_range s' = Some (1, 9007199254740992)%float.
Proof.
  intros (libm & s' & Hrun & Hr).
  pose proof (active_range_of_run (ops := binary64 libm) _ _ _ _ _
                (attached_state_live _ _ _) (attached_state_default_range _ _ _)
                Hrun Hr) as Heq.
  apply (f_equal (fun r => PrimFloat.eqb r.1 1)) in Heq.
  vm_compute in Heq. discriminate.
Qed.

(** C2, amended.  At brightness 0 and contrast 0 the handler leaves the
    default data range as the active display range
    - for every default range, when the arithmetic is exact, and
    - on the binary64 code, for every default range whose two bounds are
      integers between 0 and 255 (the scalar range of 8-bit samples). *)
Theorem zero_brightness_contrast_reproduces_default_range :
  (forall (s : @State R) (lo hi : R),
     handles_live s -> default_range s = Some (lo, hi) ->
     cut_brightness (self s) = 0%R -> cut_contrast (self s) = 0%R ->
     exists s',
       _on_cut_brightness_contrast (ops := exact) s = Return tt s' /\
       active_range s' = Some (lo, hi)) /\
  (forall (libm : float -> float -> float) (s : @State float) (lo hi : Z),
     (0 <= lo <= 255)%Z -> (0 <= hi <= 255)%Z ->
     handles_live s -> default_range s = Some (Z2f lo, Z2f hi) ->
     cut_brightness (self s) = 0%float -> cut_contrast (self s) = 0%float ->
     exists s',
       _on_cut_brightness_contrast (ops := binary64 libm) s = Return tt s' /\
       active_range s' = Some (Z2f lo, Z2f hi)).
Proof.
  split.
  - intros s lo hi Hlive Hd Hb Hc.
    destruct (recompute_active_range (ops := exact) s lo hi Hlive Hd)
      as (s' & Hrun & Hr).
    exists s'. split; [exact Hrun|].
    rewrite Hr, Hb, Hc, exact_identity. reflexivity.
  - intros libm s lo hi Hlo Hhi Hlive Hd Hb Hc.
    destruct (recompute_active_range (ops := binary64 libm) s _ _ Hlive Hd)
      as (s' & Hrun & Hr).
    exists s'. split; [exact Hrun|].
    rewrite Hr, Hb, Hc, binary64_identity_8bit by assumption. reflexivity.
Qed.

Lemma zero_brightness_contrast_reproduces_default_range_witness :
  (exists s',
     _on_cut_brightness_contrast (ops := exact)
       (attached_state (ops := exact) (0, 255)%R 0%R 0%R) = Return tt s' /\
     active_range s' = Some (0, 255)%R) /\
  (forall libm : float -> float -> float,
   exists s',
     _on_cut_brightness_contrast (ops := binary64 libm)
       (attached_state (ops := binary64 libm) (Z2f 0, Z2f 255) 0%float 0%float)
     = Return tt s' /\
     active_range s' = Some (Z2f 0, Z2f 255)).
Proof.
  split.
  - apply (proj1 zero_brightness_contrast_reproduces_default_range
             (attached_state (ops := exact) (0, 255)%R 0%R 0%R) 0%R 255%R);
      [apply attached_state_live | reflexivity | reflexivity | reflexivity].
  - intros libm.
    apply (proj2 zero_brightness_contrast_reproduces_default_range libm
             (attached_state (ops := binary64 libm) (Z2f 0, Z2f 255) 0%float 0%float)
             0%Z 255%Z);
      [lia | lia | apply attached_state_live | reflexivity | reflexivity
      | reflexivity].
Defined.

(** ** Contrast and the width of the display range *)

(** What the binary64 code leaves for the default range [(1e17, 1e17 + 16)]
    at brightness 0: at contrast 0 and at contrast 1 alike the radius is lost
    when it is added to the level. *)
Example binary64_absorbed_range (libm : float -> float -> float) :
  libm 2%float (-1)%float = 0.5%float ->
  exists s0 s1,
    _on_cut_brightness_contrast (ops := binary64 libm)
      (attached_state (ops := binary64 libm)
         (1e17, 100000000000000016)%float 0%float 0%float) = Return tt s0 /\
    _on_cut_brightness_contrast (ops := binary64 libm)
      (attached_state (ops := binary64 libm)
         (1e17, 100000000000000016)%float 0%float 1%float) = Return tt s1 /\
    active_range s0 = Some (1e17, 1e17)%float /\
    active_range s1 = Some (1e17, 1e17)%float.
Proof.
  intros Hpow.
  destruct (recompute_active_range (ops := binary64 libm)
              (attached_state (ops := binary64 libm)
                 (1e17, 100000000000000016)%float 0%float 0%float) _ _
              (attached_state_live _ _ _) (attached_state_default_range _ _ _))
    as (s0 & Hrun0 & Hr0).
  destruct (recompute_active_range (ops := binary64 libm)
              (attached_state (ops := binary64 libm)
                 (1e17, 100000000000000016)%float 0%float 1%float) _ _
              (attached_state_live _ _ _) (attached_state_default_range _ _ _))
    as (s1 & Hrun1 & Hr1).
  exists s0, s1. split; [exact Hrun0|]. split; [exact Hrun1|].
  rewrite Hr0, Hr1. cbn [attached_state self cut_brightness cut_contrast].
  rewrite binary64_display_range_contrast_1, Hpow.
  split; vm_compute; reflexivity.
Qed.

(** C3, as stated, fails on the binary64 code: for the non-degenerate
    default range [(1e17, 1e17 + 16)] and brightness 0, the display range at
    contrast 1 is not strictly narrower than at contrast 0, on any platform
    whose [pow(2.0, -1.0)] is [0.5]: the adjusted radius is absorbed by the
    level and both ranges are [(1e17, 1e17)], of width 0. *)
Lemma contrast_does_not_narrow_absorbed_range :
  ~ exists (libm : float -> float -> float) s0 s1 r0 r1,
      libm 2%float (-1)%float = 0.5%float /\
      _on_cut_brightness_contrast (ops := binary64 libm)
        (attached_state (ops := binary64 libm)
           (1e17, 100000000000000016)%float 0%float 0%float) = Return tt s0 /\
      _on_cut_brightness_contrast (ops := binary64 libm)
        (attached_state (ops := binary64 libm)
           (1e17, 100000000000000016)%float 0%float 1%float) = Return tt s1 /\
      active_range s0 = Some r0 /\ active_range s1 = Some r1 /\
      flt (FloatOps := binary64 libm)
        (width (ops := binary64 libm) r1) (width (ops := binary64 libm) r0) = true.
Proof.
  intros (libm & s0 & s1 & r0 & r1 & Hpow & Hrun0 & Hrun1 & Hr0 & Hr1 & Hlt).
  pose proof (active_range_of_run (ops := binary64 libm) _ _ _ _ _
                (attached_state_live _ _ _) (attached_state_default_range _ _ _)
                Hrun0 Hr0) as ->.
  pose proof (active_range_of_run (ops := binary64 libm) _ _ _ _ _
                (attached_state_live _ _ _) (attached_state_default_range _ _ _)
                Hrun1 Hr1) as ->.
  cbn [attached_state self cut_brightness cut_contrast] in Hlt.
  rewrite binary64_display_range_contrast_1, Hpow in Hlt.
  vm_compute in Hlt. discriminate.
Qed.

(** C3, amended.  In exact arithmetic, for every brightness and every
    non-degenerate default data range, the display range left at a contrast
    [c > 0] is strictly narrower than the one left at contrast 0, and the one
    left at a contrast [c < 0] is strictly wider. *)
Theorem contrast_narrows_and_widens_exact (s : @State R) (lo hi c : R) :
  handles_live s ->
  default_range s = Some (lo, hi) ->
  (lo < hi)%R ->
  exists s0 sc r0 rc,
    _on_cut_brightness_contrast (ops := exact) (with_contrast 0%R s) = Return tt s0 /\
    _on_cut_brightness_contrast (ops := exact) (with_contrast c s) = Return tt sc /\
    active_range s0 = Some r0 /\ active_range sc = Some rc /\
    ((0 < c)%R -> (width (ops := exact) rc < width (ops := exact) r0)%R) /\
    ((c < 0)%R -> (width (ops := exact) r0 < width (ops := exact) rc)%R).
Proof.
  intros Hlive Hd Hlt.
  destruct (recompute_active_range (ops := exact) (with_contrast 0%R s) lo hi
              Hlive Hd) as (s0 & Hrun0 & Hr0).
  destruct (recompute_active_range (ops := exact) (with_contrast c s) lo hi
              Hlive Hd) as (sc & Hrunc & Hrc).
  exists s0, sc. do 2 eexists.
  split; [exact Hrun0|]. split; [exact Hrunc|].
  split; [exact Hr0|]. split; [exact Hrc|].
  rewrite !exact_width.
  cbn [with_contrast with_self self store_cut_contrast cut_contrast].
  rewrite Rpower_2_0.
  split; intros Hc.
  - assert (Rpower 2 (- c) < 1)%R.
    { rewrite <- Rpower_2_0. apply Rpower_2_lt. lra. }
    apply Rmult_lt_compat_l; lra.
  - assert (1 < Rpower 2 (- c))%R.
    { rewrite <- Rpower_2_0. apply Rpower_2_lt. lra. }
    apply Rmult_lt_compat_l; lra.
Qed.

Lemma contrast_narrows_and_widens_exact_witness :
  (0 < 255)%R /\
  exists s0 sc r0 rc,
    _on_cut_brightness_contrast (ops := exact)
      (with_contrast 0%R (attached_state (ops := exact) (0, 255)%R 0%R 0%R))
    = Return tt s0 /\
    _on_cut_brightness_contrast (ops := exact)
      (with_contrast 1%R (attached_state (ops := exact) (0, 255)%R 0%R 0%R))
    = Return tt sc /\
    active_range s0 = Some r0 /\ active_range sc = Some rc /\
    ((0 < 1)%R -> (width (ops := exact) rc < width (ops := exact) r0)%R) /\
    ((1 < 0)%R -> (width (ops := exact) r0 < width (ops := exact) rc)%R).
Proof.
  split; [lra|].
  apply (contrast_narrows_and_widens_exact
           (attached_state (ops := exact) (0, 255)%R 0%R 0%R) 0%R 255%R 1%R);
    [apply attached_state_live | reflexivity | lra].
Defined.

(** ** Extreme brightness and the center of the display range *)

(** What the binary64 code leaves for the default range [(1, 2^53)] at
    brightness 1 and contrast 0. *)
Example binary64_brightness_one_on_wide_range (libm : float -> float -> float) :
  exists s',
    _on_cut_brightness_contrast (ops := binary64 libm)
      (attached_state (ops := binary64 libm)
         (1, 9007199254740992)%float 1%float 0%float) = Return tt s' /\
    active_range s' = Some (-4503599627370495, 4503599627370496)%float /\
    (center (ops := binary64 libm) <$> active_range s') = Some 0.5%float.
Proof. eexists. repeat split; vm_compute; reflexivity. Qed.

(** C7, as stated, fails on the binary64 code: with the default range
    [(1.0, 9007199254740992.0)], brightness 1 and contrast 0, the display
    range is [(-4503599627370495.0, 4503599627370496.0)], whose center is
    [0.5] and not [data_low = 1.0], whatever the C library. *)
Lemma brightness_one_misses_data_low :
  ~ exists (libm : float -> float -> float) s' r,
      _on_cut_brightness_contrast (ops := binary64 libm)
        (attached_state (ops := binary64 libm)
           (1, 9007199254740992)%float 1%float 0%float) = Return tt s' /\
      active_range s' = Some r /\
      center (ops := binary64 libm) r = 1%float.
Proof.
  intros (libm & s' & r & Hrun & Hr & Hc).
  pose proof (active_range_of_run (ops := binary64 libm) _ _ _ _ _
                (attached_state_live _ _ _) (attached_state_default_range _ _ _)
                Hrun Hr) as ->.
  apply (f_equal (fun x => PrimFloat.eqb x 1)) in Hc.
  vm_compute in Hc. discriminate.
Qed.

(** C7, amended.  In exact arithmetic, for every default data range and
    every contrast, the display range left at brightness 1 is centered on
    [data_low] and the one left at brightness -1 on [data_high]. *)
Theorem extreme_brightness_centers_on_extreme_exact (s : @State R) (lo hi : R) :
  handles_live s ->
  default_range s = Some (lo, hi) ->
  exists s1 sm r1 rm,
    _on_cut_brightness_contrast (ops := exact) (with_brightness 1%R s)
    = Return tt s1 /\
    _on_cut_brightness_contrast (ops := exact) (with_brightness (-1)%R s)
    = Return tt sm /\
    active_range s1 = Some r1 /\ active_range sm = Some rm /\
    center (ops := exact) r1 = lo /\ center (ops := exact) rm = hi.
Proof.
  intros Hlive Hd.
  destruct (recompute_active_range (ops := exact) (with_brightness 1%R s) lo hi
              Hlive Hd) as (s1 & Hrun1 & Hr1).
  destruct (recompute_active_range (ops := exact) (with_brightness (-1)%R s) lo hi
              Hlive Hd) as (sm & Hrunm & Hrm).
  exists s1, sm. do 2 eexists.
  split; [exact Hrun1|]. split; [exact Hrunm|].
  split; [exact Hr1|]. split; [exact Hrm|].
  rewrite !exact_center.
  cbn [with_brightness with_self self store_cut_brightness cut_brightness].
  split; lra.
Qed.

Lemma extreme_brightness_centers_on_extreme_exact_witness :
  default_range (attached_state (ops := exact) (0, 255)%R 0%R 0.5%R)
  = Some (0, 255)%R /\
  exists s1 sm r1 rm,
    _on_cut_brightness_contrast (ops := exact)
      (with_brightness 1%R (attached_state (ops := exact) (0, 255)%R 0%R 0.5%R))
    = Return tt s1 /\
    _on_cut_brightness_contrast (ops := exact)
      (with_brightness (-1)%R (attached_state (ops := exact) (0, 255)%R 0%R 0.5%R))
    = Return tt sm /\
    active_range s1 = Some r1 /\ active_range sm = Some rm /\
    center (ops := exact) r1 = 0%R /\ center (ops := exact) rm = 255%R.
Proof.
  split; [reflexivity|].
  apply (extreme_brightness_centers_on_extreme_exact
           (attached_state (ops := exact) (0, 255)%R 0%R 0.5%R) 0%R 255%R);
    [apply attached_state_live | reflexivity].
Defined.

(** ** Order of the display range *)

(** What the binary64 code leaves for the default range [(-2^1023, 2^1023)]
    at brightness 0 and contrast 0. *)
Example binary64_overflowing_range (libm : float -> float -> float) :
  exists s',
    _on_cut_brightness_contrast (ops := binary64 libm)
      (attached_state (ops := binary64 libm)
         (-0x1p1023, 0x1p1023)%float 0%float 0%float) = Return tt s' /\
    active_range s' = Some (nan, nan).
Proof. eexists. split; vm_compute; reflexivity. Qed.

(** C9, as stated, fails on the binary64 code: the default range
    [(-2^1023, 2^1023)] is ordered, yet at brightness 0 and contrast 0 its
    half-width overflows to infinity and the display range is [(nan, nan)],
    whose first component is not less than or equal to its second. *)
Lemma overflowing_range_is_not_ordered :
  fle (FloatOps := binary64 (fun _ _ => 1%float))
    (-0x1p1023)%float 0x1p1023%float = true /\
  ~ exists (libm : float -> float -> float) s' r,
      _on_cut_brightness_contrast (ops := binary64 libm)
        (attached_state (ops := binary64 libm)
           (-0x1p1023, 0x1p1023)%float 0%float 0%float) = Return tt s' /\
      active_range s' = Some r /\
      fle (FloatOps := binary64 libm) r.1 r.2 = true.
Proof.
  split; [reflexivity|].
  intros (libm & s' & r & Hrun & Hr & Hle).
  pose proof (active_range_of_run (ops := binary64 libm) _ _ _ _ _
                (attached_state_live _ _ _) (attached_state_default_range _ _ _)
                Hrun Hr) as ->.
  vm_compute in Hle. discriminate.
Qed.

(** On the binary64 code the display range is ordered for the ranges of
    8-bit samples: checked for every range [0 <= lo <= hi <= 255] of
    integers, every brightness [k / 64] and the contrasts -1, 0 and 1. *)
Lemma ordered_checked :
  ordered_checks (sixty_fourth <$> seqZ (-64) 129)
    [(-1)%float; 0%float; 1%float]
    ((fun z => (z, Z2f z)) <$> seqZ 0 256) = true.
Proof. vm_compute. reflexivity. Qed.

(** At the contrasts -1, 0 and 1 the mapping consults the C library for
    two to the power 1 and to the power -1 only. *)
Lemma binary64_display_range_exact_powers
    (libm : float -> float -> float) (lo hi b c : float) :
  libm 2%float 1%float = 2%float ->
  libm 2%float (-1)%float = 0.5%float ->
  c = (-1)%float \/ c = 0%float \/ c = 1%float ->
  display_range (ops := binary64 libm) lo hi b c =
  display_range (ops := binary64 exact_powers) lo hi b c.
Proof.
  intros Hp Hm [-> | [-> | ->]].
  - change (display_range (ops := binary64 libm) lo hi b (-1)%float)
      with (((lo + hi) / 2 - (hi - lo) / 2 * b) - (hi - lo) / 2 * libm 2 1,
            ((lo + hi) / 2 - (hi - lo) / 2 * b) + (hi - lo) / 2 * libm 2 1)%float.
    rewrite Hp. reflexivity.
  - reflexivity.
  - rewrite binary64_display_range_contrast_1, Hm. reflexivity.
Qed.

Lemma ordered_checks_In (bs cs : list float) (zs : list (Z * float))
    (b c : float) (lo hi : Z * float) :
  ordered_checks bs cs zs = true ->
  In b bs -> In c cs -> In lo zs -> In hi zs ->
  (lo.1 <= hi.1)%Z ->
  ordered_check b c lo.2 hi.2 = true.
Proof.
  unfold ordered_checks. intros Hall Hb Hc Hlo Hhi Hle.
  rewrite forallb_forall in Hall. specialize (Hall b Hb).
  rewrite forallb_forall in Hall. specialize (Hall c Hc).
  rewrite forallb_forall in Hall. specialize (Hall lo Hlo).
  rewrite forallb_forall in Hall. specialize (Hall hi Hhi).
  apply orb_prop in Hall as [Hlt | Hok]; [|exact Hok].
  apply Z.ltb_lt in Hlt. lia.
Qed.

Lemma binary64_ordered_8bit (libm : float -> float -> float)
    (lo hi k : Z) (c : float) :
  libm 2%float 1%float = 2%float ->
  libm 2%float (-1)%float = 0.5%float ->
  (0 <= lo <= hi)%Z -> (hi <= 255)%Z -> (-64 <= k <= 64)%Z ->
  c = (-1)%float \/ c = 0%float \/ c = 1%float ->
  let r := display_range (ops := binary64 libm) (Z2f lo) (Z2f hi)
             (sixty_fourth k) c in
  PrimFloat.leb r.1 r.2 = true.
Proof.
  intros Hp Hm Hlo Hhi Hk Hc.
  rewrite (binary64_display_range_exact_powers libm _ _ _ _ Hp Hm Hc).
  assert (Hin : forall z, (0 <= z <= 255)%Z ->
            In (z, Z2f z) ((fun z => (z, Z2f z)) <$> seqZ 0 256)).
  { intros z Hz. apply list_elem_of_In, list_elem_of_fmap. exists z.
    split; [reflexivity|]. apply elem_of_seqZ. lia. }
  apply (ordered_checks_In _ _ _ (sixty_fourth k) c (lo, Z2f lo) (hi, Z2f hi)
           ordered_checked).
  - apply list_elem_of_In, list_elem_of_fmap. exists k. split; [reflexivity|].
    apply elem_of_seqZ. lia.
  - destruct Hc as [-> | [-> | ->]]; [left | right; left | right; right; left];
      reflexivity.
  - apply Hin. lia.
  - apply Hin. lia.
  - simpl. lia.
Qed.

(** C9, amended.  The display range the handler leaves is ordered, its
    first component at most its second,
    - for every default data range with [data_low <= data_high] and every
      brightness and contrast, when the arithmetic is exact, and
    - on the binary64 code, for every default range whose bounds are
      integers with [0 <= data_low <= data_high <= 255] (the scalar ranges
      of 8-bit samples), every brightness [k / 64] with [-64 <= k <= 64]
      and the contrasts -1, 0 and 1, where the C library's [pow] answers
      [2.0] for two to the power 1 and [0.5] for two to the power -1. *)
Theorem display_range_is_ordered :
  (forall (s : @State R) (lo hi : R),
     handles_live s ->
     default_range s = Some (lo, hi) ->
     (lo <= hi)%R ->
     exists s' r,
       _on_cut_brightness_contrast (ops := exact) s = Return tt s' /\
       active_range s' = Some r /\
       (r.1 <= r.2)%R) /\
  (forall (libm : float -> float -> float) (s : @State float)
          (lo hi k : Z) (c : float),
     libm 2%float 1%float = 2%float ->
     libm 2%float (-1)%float = 0.5%float ->
     (0 <= lo <= hi)%Z -> (hi <= 255)%Z -> (-64 <= k <= 64)%Z ->
     c = (-1)%float \/ c = 0%float \/ c = 1%float ->
     handles_live s ->
     default_range s = Some (Z2f lo, Z2f hi) ->
     cut_brightness (self s) = sixty_fourth k ->
     cut_contrast (self s) = c ->
     exists s' r,
       _on_cut_brightness_contrast (ops := binary64 libm) s = Return tt s' /\
       active_range s' = Some r /\
       fle (FloatOps := binary64 libm) r.1 r.2 = true).
Proof.
  split.
  - intros s lo hi Hlive Hd Hle.
    destruct (recompute_active_range (ops := exact) s lo hi Hlive Hd)
      as (s' & Hrun & Hr).
    exists s'. eexists. split; [exact Hrun|]. split; [exact Hr|].
    apply exact_ordered. exact Hle.
  - intros libm s lo hi k c Hp Hm Hlo Hhi Hk Hc Hlive Hd Hb Hcc.
    destruct (recompute_active_range (ops := binary64 libm) s _ _ Hlive Hd)
      as (s' & Hrun & Hr).
    exists s'. eexists. split; [exact Hrun|]. split; [exact Hr|].
    rewrite Hb, Hcc. apply binary64_ordered_8bit; assumption.
Qed.

Lemma display_range_is_ordered_witness :
  ((0 <= 255)%R /\
   exists s' r,
     _on_cut_brightness_contrast (ops := exact)
       (attached_state (ops := exact) (0, 255)%R (-1)%R 1%R) = Return tt s' /\
     active_range s' = Some r /\
     (r.1 <= r.2)%R) /\
  (exact_powers 2%float 1%float = 2%float /\
   exact_powers 2%float (-1)%float = 0.5%float /\
   exists s' r,
     _on_cut_brightness_contrast (ops := binary64 exact_powers)
       (attached_state (ops := binary64 exact_powers) (Z2f 0, Z2f 255)
          (sixty_fourth (-32)) 1%float) = Return tt s' /\
     active_range s' = Some r /\
     fle (FloatOps := binary64 exact_powers) r.1 r.2 = true).
Proof.
  split.
  - split; [lra|].
    apply (proj1 display_range_is_ordered
             (attached_state (ops := exact) (0, 255)%R (-1)%R 1%R) 0%R 255%R);
      [apply attached_state_live | reflexivity | lra].
  - split; [reflexivity|]. split; [reflexivity|].
    apply (proj2 display_range_is_ordered exact_powers
             (attached_state (ops := binary64 exact_powers) (Z2f 0, Z2f 255)
                (sixty_fourth (-32)) 1%float)
             0%Z 255%Z (-32)%Z 1%float);
      [reflexivity | reflexivity | lia | lia | lia | auto
      | apply attached_state_live | reflexivity | reflexivity | reflexivity].
Defined.

(** ** Instances of the statements above on concrete scenes *)

Lemma brightness_contrast_sets_display_range_witness :
  let s := attached_state (ops := exact) (0, 255)%R 0.5%R (-1)%R in
  let level := ((0 + 255) / 2)%R in
  let radius := ((255 - 0) / 2)%R in
  let L := (level - radius * 0.5)%R in
  let R := (radius * Rpower 2 (- -1))%R in
  handles_live s /\
  exists s',
    _on_cut_brightness_contrast (ops := exact) s = Return tt s' /\
    active_range s' = Some ((L - R)%R, (L + R)%R).
Proof.
  split; [apply attached_state_live|].
  apply (brightness_contrast_sets_display_range (ops := exact)
           (attached_state (ops := exact) (0, 255)%R 0.5%R (-1)%R) 2
           (set_visible false (new_widget (ops := exact) 0 "z_axes" 0))
           (set_lut_mode "gray"
              (new_lut_manager
                 {| outputs := [0]; scalar_range := (0, 255)%R;
                    module_manager := None |}))
           0%R 255%R);
    [reflexivity | reflexivity | reflexivity | reflexivity
    | apply attached_state_live].
Defined.

Lemma add_actors_absent_volume_is_noop_witness :
  (forall child,
     child ∈ children (scene (fresh_state (ops := exact) (0, 255)%R)) ->
     1 ∉ outputs child) /\
  add_actors_to_scene (ops := exact) {| mapper_input := 1 |}
    (fresh_state (ops := exact) (0, 255)%R)
  = Return tt (fresh_state (ops := exact) (0, 255)%R).
Proof.
  assert (Habsent : forall child,
            child ∈ children (scene (fresh_state (ops := exact) (0, 255)%R)) ->
            1 ∉ outputs child).
  { intros child ->%list_elem_of_singleton [=]%list_elem_of_singleton. }
  split; [exact Habsent|].
  apply (add_actors_absent_volume_is_noop (ops := exact) {| mapper_input := 1 |}
           (fresh_state (ops := exact) (0, 255)%R) Habsent).
Defined.

Lemma add_actors_attaches_all_or_none_witness :
  scene_wf (fresh_scene (0, 255)%R) /\
  exists s',
    add_actors_to_scene (ops := exact) {| mapper_input := 0 |}
      (fresh_state (ops := exact) (0, 255)%R) = Return tt s' /\
    ((_find_volume_data_source (fresh_scene (0, 255)%R) {| mapper_input := 0 |}
      = None /\
      image_plane_widgets (self s') = [None; None; None]) \/
     (exists data_source hx hy hz,
        _find_volume_data_source (fresh_scene (0, 255)%R) {| mapper_input := 0 |}
        = Some data_source /\
        image_plane_widgets (self s') = [Some hx; Some hy; Some hz] /\
        handles_live s')).
Proof.
  split; [apply fresh_scene_wf|].
  apply (add_actors_attaches_all_or_none (ops := exact) {| mapper_input := 0 |}
           (fresh_state (ops := exact) (0, 255)%R));
    [apply fresh_scene_wf | reflexivity].
Defined.

(** ** Opacity and the assignment of [slicer_alpha] *)

(** C6, as stated, fails on the code: a trait notifies its handler only
    when the assigned value compares unequal to the stored one.  On the
    binary64 code, after [slicer_alpha = 0.25] and [add_actors_to_scene] on
    the scene of 8-bit data, the three widgets are attached and have the
    opacity [1.0] the toolkit creates them with; assigning [0.25], a value
    of [0, 1], once more returns and leaves the state as it was: the
    opacities are still [1.0] and no redraw is requested. *)
Lemma repeated_slicer_alpha_does_not_reach_widgets :
  exists s s' : @State float,
    (forall libm : float -> float -> float,
       in_range (ops := binary64 libm) 0%float 1%float 0.25%float = true /\
       run_calls (ops := binary64 libm)
         [Assign SlicerAlpha 0.25%float; AddActors {| mapper_input := 0 |}]
         (fresh_state (ops := binary64 libm) (0, 255)%float) = s /\
       assign (ops := binary64 libm) SlicerAlpha 0.25%float s = Return tt s') /\
    image_plane_widgets (self s) = [Some 0; Some 1; Some 2] /\
    slicer_alpha (self s) = 0.25%float /\
    s' = s /\
    opacity <$> widgets (scene s') = [1%float; 1%float; 1%float].
Proof.
  do 2 eexists. split; [intros libm; split; [|split]|].
  - reflexivity.
  - vm_compute. reflexivity.
  - vm_compute. reflexivity.
  - repeat split.
Qed.

Lemma assigned_slicer_alpha_reaches_attached_widgets_witness :
  let s := attached_state (ops := exact) (0, 255)%R 0%R 0%R in
  handles_live s /\
  in_range (ops := exact) 0%R 1%R 0.5%R = true /\
  exists s',
    assign (ops := exact) SlicerAlpha 0.5%R s = Return tt s' /\
    slicer_alpha (self s') = 0.5%R /\
    (feq (FloatOps := exact) (slicer_alpha (self s)) 0.5%R = false ->
     forall h, Some h ∈ image_plane_widgets (self s) ->
       exists w w',
         widgets (scene s) !! h = Some w /\
         widgets (scene s') !! h = Some w' /\
         opacity w' = 0.5%R /\ renders w < renders w') /\
    (feq (FloatOps := exact) (slicer_alpha (self s)) 0.5%R = true ->
     scene s' = scene s) /\
    (image_plane_widgets (self s) = [None; None; None] -> scene s' = scene s).
Proof.
  assert (Hin : in_range (ops := exact) 0%R 1%R 0.5%R = true).
  { unfold in_range. simpl. rewrite !bool_decide_eq_true_2 by lra. reflexivity. }
  split; [apply attached_state_live|]. split; [exact Hin|].
  apply (assigned_slicer_alpha_reaches_attached_widgets (ops := exact) 0.5%R
           (attached_state (ops := exact) (0, 255)%R 0%R 0%R));
    [apply attached_state_live | exact Hin].
Defined.

(** Called with a value the [slicer_alpha] trait would have refused, the
    handler raises at the first attached widget, whose opacity the toolkit
    guards the same way, and nothing is written. *)
Example binary64_handler_refuses_opacity_above_one
    (libm : float -> float -> float) :
  _slicer_alpha_changed (ops := binary64 libm) 1.5%float
    (attached_state (ops := binary64 libm) (0, 255)%float 0%float 0%float)
  = Raise TraitError
      (attached_state (ops := binary64 libm) (0, 255)%float 0%float 0%float).
Proof. reflexivity. Qed.

Lemma slicer_alpha_total_under_partial_attachment_witness :
  let s := partly_attached_state (ops := exact) (0, 255)%R in
  image_plane_widgets (self s) = [Some 0; None; None] /\
  in_range (ops := exact) 0%R 1%R 0.5%R = true /\
  exists s',
    _slicer_alpha_changed (ops := exact) 0.5%R s = Return tt s' /\
    self s' = self s /\
    luts (scene s') = luts (scene s) /\
    children (scene s') = children (scene s) /\
    length (widgets (scene s')) = length (widgets (scene s)) /\
    forall k w, widgets (scene s) !! k = Some w ->
      (Some k ∈ [Some 0; None; None] ->
         exists w', widgets (scene s') !! k = Some w' /\ opacity w' = 0.5%R /\
           source w' = source w /\ plane_orientation w' = plane_orientation w /\
           lut w' = lut w /\ visible w' = visible w) /\
      (Some k ∉ [Some 0; None; None] -> widgets (scene s') !! k = Some w).
Proof.
  assert (Hin : in_range (ops := exact) 0%R 1%R 0.5%R = true).
  { unfold in_range. simpl. rewrite !bool_decide_eq_true_2 by lra. reflexivity. }
  split; [reflexivity|]. split; [exact Hin|].
  apply (slicer_alpha_total_under_partial_attachment (ops := exact) 0.5%R
           (partly_attached_state (ops := exact) (0, 255)%R) (Some 0) None None);
    [reflexivity | simpl; lia | exact I | exact I | exact Hin].
Defined.

(** ** Assignments outside the declared range *)

(** C8, as stated, fails on the code: a NaN is outside [0, 1] and outside
    [-1, 1], yet the validator, which refuses a value below the lower or
    above the upper bound, lets it through.  On the binary64 code, with the
    three widgets attached, [slicer_alpha = nan] returns, stores the NaN and
    writes it to the opacity of the three widgets; [cut_brightness = nan]
    returns, stores the NaN and leaves [(nan, nan)] as the display range. *)
Lemma nan_assignment_is_stored_and_propagated :
  exists s1 s2 : @State float,
    (forall libm : float -> float -> float,
       in_range (ops := binary64 libm) (trait_low (ops := binary64 libm) SlicerAlpha)
         (trait_high (ops := binary64 libm) SlicerAlpha) nan = false /\
       in_range (ops := binary64 libm) (trait_low (ops := binary64 libm) CutBrightness)
         (trait_high (ops := binary64 libm) CutBrightness) nan = false /\
       assign (ops := binary64 libm) SlicerAlpha nan
         (attached_state (ops := binary64 libm) (0, 255)%float 0%float 0%float)
       = Return tt s1 /\
       assign (ops := binary64 libm) CutBrightness nan
         (attached_state (ops := binary64 libm) (0, 255)%float 0%float 0%float)
       = Return tt s2) /\
    slicer_alpha (self s1) = nan /\
    opacity <$> widgets (scene s1) = [nan; nan; nan] /\
    cut_brightness (self s2) = nan /\
    active_range s2 = Some (nan, nan).
Proof.
  do 2 eexists. split; [intros libm; split; [|split; [|split]]|].
  - reflexivity.
  - reflexivity.
  - vm_compute. reflexivity.
  - vm_compute. reflexivity.
  - repeat split.
Qed.

Lemma assignment_below_or_above_range_is_rejected_witness :
  refused (ops := exact) (trait_low (ops := exact) CutBrightness)
    (trait_high (ops := exact) CutBrightness) 2%R = true /\
  assign (ops := exact) CutBrightness 2%R
    (attached_state (ops := exact) (0, 255)%R 0%R 0%R)
  = Raise TraitError (attached_state (ops := exact) (0, 255)%R 0%R 0%R).
Proof.
  assert (Hout : refused (ops := exact) (trait_low (ops := exact) CutBrightness)
                   (trait_high (ops := exact) CutBrightness) 2%R = true).
  { unfold refused, trait_low, trait_high. simpl.
    rewrite (bool_decide_eq_true_2 (1 < 2)%R) by lra.
    apply orb_true_r. }
  split; [exact Hout|].
  apply (assignment_below_or_above_range_is_rejected (ops := exact)
           CutBrightness 2%R
           (attached_state (ops := exact) (0, 255)%R 0%R 0%R) Hout).
Defined.

(** On the binary64 code the same assignment, one below the range and one
    of an infinity are refused as well, whatever the C library. *)
Example binary64_rejects_out_of_range (libm : float -> float -> float) :
  assign (ops := binary64 libm) CutBrightness 2%float
    (attached_state (ops := binary64 libm) (0, 255)%float 0%float 0%float)
  = Raise TraitError
      (attached_state (ops := binary64 libm) (0, 255)%float 0%float 0%float) /\
  assign (ops := binary64 libm) SlicerAlpha (-0.5)%float
    (attached_state (ops := binary64 libm) (0, 255)%float 0%float 0%float)
  = Raise TraitError
      (attached_state (ops := binary64 libm) (0, 255)%float 0%float 0%float) /\
  assign (ops := binary64 libm) CutContrast infinity
    (attached_state (ops := binary64 libm) (0, 255)%float 0%float 0%float)
  = Raise TraitError
      (attached_state (ops := binary64 libm) (0, 255)%float 0%float 0%float).
Proof. repeat split. Qed.

(** * Further properties of the code *)

(** ** The data source of a volume actor *)

Section DataSource.
Context {F : Type}.
Implicit Types (sc : @Scene F) (cs : list (@DataNode F)) (nd : @DataNode F).

Lemma find_child_first (v : nat) cs (i j : handle) :
  find_child v cs i = Some j <->
  i <= j /\
  (exists nd, cs !! (j - i) = Some nd /\ v ∈ outputs nd) /\
  (forall k nd, k < j - i -> cs !! k = Some nd -> v ∉ outputs nd).
Proof.
  revert i. induction cs as [|c cs IH]; intros i; simpl.
  - split; [discriminate|]. intros (_ & (nd & Hnd & _) & _). discriminate.
  - destruct (bool_decide_reflect (v ∈ outputs c)) as [Hin|Hnin].
    + split.
      * intros [= <-]. split; [lia|]. rewrite Nat.sub_diag.
        split; [eauto|]. intros k nd Hk. lia.
      * intros (Hle & _ & Hfirst).
        destruct (decide (j = i)) as [->|Hne]; [reflexivity|].
        exfalso. apply (Hfirst 0 c); [lia | reflexivity | exact Hin].
    + rewrite IH. split.
      * intros (Hle & (nd & Hnd & Hv) & Hfirst). split; [lia|].
        replace (j - i) with (S (j - S i)) by lia. split; [eauto|].
        intros [|k] nd' Hk Hnd'.
        -- injection Hnd' as <-. exact Hnin.
        -- apply (Hfirst k nd'); [lia | exact Hnd'].
      * intros (Hle & (nd & Hnd & Hv) & Hfirst).
        assert (Hlt : i < j).
        { destruct (decide (i = j)) as [->|]; [|lia].
          rewrite Nat.sub_diag in Hnd. injection Hnd as <-. contradiction. }
        split; [lia|].
        replace (j - i) with (S (j - S i)) in Hnd, Hfirst by lia.
        split; [eauto|].
        intros k nd' Hk Hnd'. apply (Hfirst (S k) nd'); [lia | exact Hnd'].
Qed.

(** X1.  [_find_volume_data_source] answers the first top-level child of the
    scene whose outputs contain the volume actor's mapper input: a child
    [j] is the answer exactly when it contains the input and no child before
    it does. *)
Theorem find_volume_data_source_is_first_match sc (volume_actor : VolumeActor)
    (j : handle) :
  _find_volume_data_source sc volume_actor = Some j <->
  (exists nd, children sc !! j = Some nd /\
              mapper_input volume_actor ∈ outputs nd) /\
  (forall k nd, k < j -> children sc !! k = Some nd ->
                mapper_input volume_actor ∉ outputs nd).
Proof.
  unfold _find_volume_data_source. simpl. rewrite find_child_first.
  rewrite Nat.sub_0_r. split.
  - intros (_ & Hj & Hfirst). auto.
  - intros (Hj & Hfirst). split; [lia | auto].
Qed.

(** The search reads the outputs of the children and nothing else. *)
Lemma find_child_outputs (v : nat) cs cs' (i : handle) :
  outputs <$> cs = outputs <$> cs' -> find_child v cs i = find_child v cs' i.
Proof.
  revert cs' i. induction cs as [|c cs IH]; intros [|c' cs'] i Heq;
    try discriminate; [reflexivity|].
  simpl in *. injection Heq as Hc Hcs. rewrite Hc.
  destruct (bool_decide _); [reflexivity | auto].
Qed.

End DataSource.

(** ** What the brightness/contrast handler changes and what it keeps *)

Section HandlerFrame.
Context {F : Type} {ops : FloatOps F}.
Implicit Types (s : @State F) (w : @ImagePlaneWidget F) (m : @LutManager F).
Implicit Types (h k l : handle).

Lemma iter_count_render_renders n w :
  renders (Nat.iter n count_render w) = n + renders w.
Proof. induction n as [|n IH]; simpl; [|rewrite IH]; reflexivity. Qed.

Lemma iter_count_render_frame n w :
  let w' := Nat.iter n count_render w in
  source w' = source w /\ plane_orientation w' = plane_orientation w /\
  lut w' = lut w /\ visible w' = visible w /\ opacity w' = opacity w.
Proof. induction n as [|n IH]; simpl in *; intuition. Qed.

(** The state the handler leaves, field by field. *)
Lemma on_cut_brightness_contrast_effect s h w m :
  image_plane_widget_z (self s) = Some h ->
  widgets (scene s) !! h = Some w ->
  luts (scene s) !! lut w = Some m ->
  handles_live s ->
  exists s',
    _on_cut_brightness_contrast s = Return tt s' /\
    self s' = self s /\
    children (scene s') = children (scene s) /\
    (forall k, widgets (scene s') !! k =
               Nat.iter (hits k (image_plane_widgets (self s))) count_render
                 <$> widgets (scene s) !! k) /\
    luts (scene s') =
      alter (set_data_range
               (display_range (default_data_range m).1 (default_data_range m).2
                  (cut_brightness (self s)) (cut_contrast (self s))))
        (lut w) (alter (set_use_default_range false) (lut w) (luts (scene s))).
Proof.
  intros Hz Hw Hm Hlive.
  eexists. split; [apply (on_cut_brightness_contrast_run s h w m); assumption|].
  set (s1 := rerange _ _ _ s).
  split; [rewrite (foldl_step_self _ (touch_self count_render)); reflexivity|].
  split; [rewrite (foldl_step_children _ (touch_children count_render));
          reflexivity|].
  split.
  - intros k. rewrite (foldl_step_widgets _ _ (lookup_touch count_render)).
    reflexivity.
  - rewrite (foldl_step_luts _ (touch_luts count_render)). reflexivity.
Qed.

(** X2.  With the z widget attached, the brightness/contrast handler asks
    every attached widget to redraw and changes nothing else of any widget;
    of the LUT managers it touches only the one of the z widget, and of that
    one neither the LUT mode nor the default data range; the data nodes and
    the object itself stay as they are. *)
Theorem brightness_contrast_handler_frame s h w m :
  image_plane_widget_z (self s) = Some h ->
  widgets (scene s) !! h = Some w ->
  luts (scene s) !! lut w = Some m ->
  handles_live s ->
  exists s',
    _on_cut_brightness_contrast s = Return tt s' /\
    self s' = self s /\
    children (scene s') = children (scene s) /\
    (forall k w0, widgets (scene s) !! k = Some w0 ->
       exists w1, widgets (scene s') !! k = Some w1 /\
         source w1 = source w0 /\ plane_orientation w1 = plane_orientation w0 /\
         lut w1 = lut w0 /\ visible w1 = visible w0 /\ opacity w1 = opacity w0 /\
         (Some k ∈ image_plane_widgets (self s) -> renders w0 < renders w1) /\
         (Some k ∉ image_plane_widgets (self s) -> w1 = w0)) /\
    (forall l, l <> lut w -> luts (scene s') !! l = luts (scene s) !! l) /\
    (exists m', luts (scene s') !! lut w = Some m' /\
       lut_mode m' = lut_mode m /\
       default_data_range m' = default_data_range m /\
       use_default_range m' = false).
Proof.
  intros Hz Hw Hm Hlive.
  destruct (on_cut_brightness_contrast_effect s h w m Hz Hw Hm Hlive)
    as (s' & Hrun & Hself & Hchildren & Hws & Hluts).
  exists s'. split; [exact Hrun|]. split; [exact Hself|].
  split; [exact Hchildren|]. split; [|split].
  - intros k w0 Hw0. rewrite Hws, Hw0. simpl. eexists. split; [reflexivity|].
    pose proof (iter_count_render_frame
                  (hits k (image_plane_widgets (self s))) w0) as Hframe.
    simpl in Hframe. destruct Hframe as (H1 & H2 & H3 & H4 & H5).
    repeat (split; [assumption|]). split.
    + intros Hin. apply hits_member in Hin.
      rewrite iter_count_render_renders. lia.
    + intros Hnin. rewrite (hits_not_member k _ Hnin). reflexivity.
  - intros l Hl. rewrite Hluts, !list_lookup_alter_ne by congruence. reflexivity.
  - rewrite Hluts, !list_lookup_alter_eq, Hm. simpl.
    eexists. split; [reflexivity|]. auto.
Qed.

(** X3.  The handler is idempotent on the lookup tables: with the z widget
    attached it returns, and run once more on the state it left it returns
    again and leaves every LUT manager as the first run left it. *)
Theorem brightness_contrast_handler_idempotent s h w m :
  image_plane_widget_z (self s) = Some h ->
  widgets (scene s) !! h = Some w ->
  luts (scene s) !! lut w = Some m ->
  handles_live s ->
  exists s' s'',
    _on_cut_brightness_contrast s = Return tt s' /\
    _on_cut_brightness_contrast s' = Return tt s'' /\
    luts (scene s'') = luts (scene s').
Proof.
  intros Hz Hw Hm Hlive.
  destruct (on_cut_brightness_contrast_effect s h w m Hz Hw Hm Hlive)
    as (s' & Hrun & Hself & Hchildren & Hws & Hluts).
  set (n := hits h (image_plane_widgets (self s))).
  assert (Hw' : widgets (scene s') !! h = Some (Nat.iter n count_render w)).
  { rewrite Hws, Hw. reflexivity. }
  assert (Hlut : lut (Nat.iter n count_render w) = lut w)
    by apply iter_count_render_lut.
  set (r := display_range (default_data_range m).1 (default_data_range m).2
              (cut_brightness (self s)) (cut_contrast (self s))) in *.
  assert (Hm' : luts (scene s') !! lut (Nat.iter n count_render w) =
                Some (set_data_range r (set_use_default_range false m))).
  { rewrite Hlut, Hluts, !list_lookup_alter_eq, Hm. reflexivity. }
  assert (Hlive' : handles_live s').
  { unfold handles_live in *. rewrite Hself.
    eapply Forall_impl; [exact Hlive|]. intros [k|] Hk; simpl in *; [|trivial].
    apply lookup_lt_is_Some. rewrite Hws.
    apply lookup_lt_is_Some_2 in Hk as [w0 ->]. simpl. eauto. }
  destruct (on_cut_brightness_contrast_effect s' h _ _
              ltac:(rewrite Hself; exact Hz) Hw' Hm' Hlive')
    as (s'' & Hrun2 & _ & _ & _ & Hluts2).
  exists s', s''. split; [exact Hrun|]. split; [exact Hrun2|].
  rewrite Hluts2, Hlut, Hself. simpl. fold r.
  apply list_eq. intros l.
  destruct (decide (l = lut w)) as [->|Hne].
  - rewrite !list_lookup_alter_eq.
    destruct (luts (scene s') !! lut w) as [m0|] eqn:Hm0; [|reflexivity].
    rewrite Hlut in Hm'. rewrite Hm0 in Hm'. injection Hm' as ->. reflexivity.
  - rewrite !list_lookup_alter_ne by congruence. reflexivity.
Qed.

End HandlerFrame.

(** ** What attachment adds to the scene *)

Section AttachEffect.
Context {F : Type} {ops : FloatOps F}.
Implicit Types (s : @State F) (sc : @Scene F) (o : @VolumeCutPlanes F).
Implicit Types (w : @ImagePlaneWidget F) (m : @LutManager F) (nd : @DataNode F).
Implicit Types (h k l : handle).

Lemma plug_widgets_eq data_source orientation s nd :
  children (scene s) !! data_source = Some nd ->
  widgets (scene (plug data_source orientation s)) =
  widgets (scene s) ++
    [set_visible false
       (new_widget data_source orientation (source_lut (scene s) data_source))].
Proof.
  intros Hnd. unfold plug, source_lut. rewrite Hnd. simpl.
  rewrite alter_app_r_alt by lia. rewrite Nat.sub_diag. reflexivity.
Qed.

Lemma plug_children data_source orientation s nd :
  children (scene s) !! data_source = Some nd ->
  outputs <$> children (scene (plug data_source orientation s)) =
    outputs <$> children (scene s) /\
  exists nd',
    children (scene (plug data_source orientation s)) !! data_source = Some nd' /\
    module_manager nd' = Some (source_lut (scene s) data_source).
Proof.
  intros Hnd. unfold plug, source_lut. rewrite Hnd. simpl.
  destruct (module_manager nd) as [l|] eqn:Hmm.
  - split; [reflexivity|]. eauto.
  - split.
    + apply list_eq. intros i. rewrite !list_lookup_fmap.
      destruct (decide (i = data_source)) as [->|Hne].
      * rewrite list_lookup_insert_eq by (eapply lookup_lt_Some; eauto).
        rewrite Hnd. reflexivity.
      * rewrite list_lookup_insert_ne by congruence. reflexivity.
    + exists (set_module_manager (length (luts (scene s))) nd).
      split; [|reflexivity].
      apply list_lookup_insert_eq. eapply lookup_lt_Some; eauto.
Qed.

Lemma plug_luts data_source orientation s nd :
  scene_wf (scene s) ->
  children (scene s) !! data_source = Some nd ->
  (exists m, luts (scene (plug data_source orientation s))
               !! source_lut (scene s) data_source = Some m /\
             lut_mode m = "gray") /\
  (forall l m, luts (scene s) !! l = Some m ->
     exists m', luts (scene (plug data_source orientation s)) !! l = Some m' /\
       default_data_range m' = default_data_range m /\
       (lut_mode m = "gray" -> lut_mode m' = "gray")).
Proof.
  intros Hwf Hnd. unfold plug, source_lut. rewrite Hnd. simpl.
  destruct (module_manager nd) as [l0|] eqn:Hmm.
  - destruct (lookup_lt_is_Some_2 (luts (scene s)) l0) as [m0 Hm0].
    { eapply node_lut_live; eauto. }
    split.
    + rewrite list_lookup_alter_eq, Hm0. simpl. eauto.
    + intros l m Hm. rewrite list_lookup_alter.
      destruct (decide (l0 = l)) as [->|Hne].
      * rewrite Hm. simpl. eauto.
      * rewrite Hm. eauto.
  - split.
    + rewrite list_lookup_alter_eq, list_lookup_middle by reflexivity.
      simpl. eauto.
    + intros l m Hm. pose proof (lookup_lt_Some _ _ _ Hm) as Hlt.
      rewrite list_lookup_alter_ne by lia.
      rewrite lookup_app_l by assumption. rewrite Hm. eauto.
Qed.

Lemma source_lut_of_node sc data_source l :
  (exists nd, children sc !! data_source = Some nd /\ module_manager nd = Some l) ->
  source_lut sc data_source = l.
Proof. intros (nd & Hnd & Hmm). unfold source_lut. rewrite Hnd, Hmm. reflexivity. Qed.

Lemma store_ipw_scalars (a : Axis) (v : option handle) o :
  slicer_alpha (store_ipw a v o) = slicer_alpha o /\
  cut_brightness (store_ipw a v o) = cut_brightness o /\
  cut_contrast (store_ipw a v o) = cut_contrast o.
Proof. auto. Qed.

(** One pass of the loop of [add_actors_to_scene], field by field.  Only the
    pass for the z axis runs the brightness/contrast handler, which redraws
    the attached widgets. *)
Lemma attach_axis_effect data_source a s nd :
  scene_wf (scene s) -> handles_live s ->
  children (scene s) !! data_source = Some nd ->
  exists s',
    (ipw <~ image_plane_widget data_source (axis_name a +:+ "_axes") ;;
     lm <~ scalar_lut_manager (Some ipw) ;;
     update_lut lm.1 (set_lut_mode "gray") ;;;
     update_widget (Some ipw) (set_visible false) ;;;
     setattr_ipw a (Some ipw)) s = Return tt s' /\
    scene_wf (scene s') /\ handles_live s' /\
    self s' = store_ipw a (Some (length (widgets (scene s)))) (self s) /\
    outputs <$> children (scene s') = outputs <$> children (scene s) /\
    (exists nd', children (scene s') !! data_source = Some nd' /\
                 module_manager nd' = Some (source_lut (scene s) data_source)) /\
    (forall k, widgets (scene s') !! k =
       Nat.iter
         (match a with
          | AxisZ => hits k (image_plane_widgets
                               (store_ipw a (Some (length (widgets (scene s))))
                                  (self s)))
          | _ => 0
          end) count_render
         <$> (widgets (scene s) ++
              [hidden_widget data_source a (source_lut (scene s) data_source)])
             !! k) /\
    (exists m, luts (scene s') !! source_lut (scene s) data_source = Some m /\
               lut_mode m = "gray") /\
    (forall l m, luts (scene s) !! l = Some m ->
       exists m', luts (scene s') !! l = Some m' /\
         default_data_range m' = default_data_range m /\
         (lut_mode m = "gray" -> lut_mode m' = "gray")) /\
    (a = AxisZ ->
     exists m, z_lut_manager s' = Some m /\
       use_default_range m = false /\
       data_range m =
         display_range (default_data_range m).1 (default_data_range m).2
           (cut_brightness (self s)) (cut_contrast (self s))).
Proof.
  intros Hwf Hlive Hnd.
  rewrite (plug_run _ _ (fun i : handle => setattr_ipw a (Some i)) s nd Hwf Hnd).
  set (orient := axis_name a +:+ "_axes").
  set (n := length (widgets (scene s))).
  set (L := source_lut (scene s) data_source).
  set (s1 := plug data_source orient s).
  set (s2 := with_self (store_ipw a (Some n) (self s1)) s1).
  assert (Hwf1 : scene_wf (scene s1)) by (eapply plug_wf; eauto).
  assert (Hself1 : self s1 = self s) by apply plug_self.
  assert (Hws1 : widgets (scene s1) =
                 widgets (scene s) ++ [hidden_widget data_source a L])
    by (apply (plug_widgets_eq _ _ _ nd Hnd)).
  assert (Hlen1 : length (widgets (scene s1)) = S n).
  { rewrite Hws1, length_app. simpl. unfold n. lia. }
  destruct (plug_children data_source orient s nd Hnd) as (Hout1 & nd1 & Hnd1 & Hmm1).
  destruct (plug_luts data_source orient s nd Hwf Hnd) as ((m1 & Hm1 & Hgray1) & Hluts1).
  fold s1 in Hout1, Hnd1, Hm1, Hluts1. fold L in Hmm1, Hm1.
  assert (Hlive1 : handles_live s1).
  { apply (handles_live_mono s); [assumption | assumption | lia]. }
  assert (Hlive2 : handles_live s2) by (apply store_ipw_live; [assumption | lia]).
  assert (Hself2 : self s2 = store_ipw a (Some n) (self s)).
  { unfold s2. simpl. rewrite Hself1. reflexivity. }
  assert (Hold : getattr_ipw a (self s1) <> Some n).
  { rewrite Hself1. intros Heq.
    unfold handles_live in Hlive. rewrite Forall_forall in Hlive.
    assert (Hin : getattr_ipw a (self s) ∈ image_plane_widgets (self s)).
    { unfold image_plane_widgets. destruct a; simpl.
      - left.
      - right. left.
      - do 2 right. left. }
    specialize (Hlive _ Hin). rewrite Heq in Hlive. simpl in Hlive.
    unfold n in Hlive. lia. }
  assert (Hplain : forall k,
            widgets (scene s2) !! k =
            Nat.iter 0 count_render
              <$> (widgets (scene s) ++ [hidden_widget data_source a L]) !! k).
  { intros k. change (widgets (scene s2)) with (widgets (scene s1)).
    rewrite Hws1. simpl.
    destruct ((widgets (scene s) ++ [hidden_widget data_source a L]) !! k);
      reflexivity. }
  assert (Hrun : setattr_ipw a (Some n) s1 =
                 match a with
                 | AxisZ => _on_cut_brightness_contrast s2
                 | _ => Return tt s2
                 end).
  { unfold setattr_ipw, bind, get, modify. simpl.
    destruct a; try reflexivity.
    rewrite bool_decide_eq_false_2 by exact Hold. reflexivity. }
  rewrite Hrun.
  assert (Hcase : a = AxisZ \/ a <> AxisZ)
    by (destruct a; [right | right | left]; congruence).
  destruct Hcase as [->|Hnz].
  - (* the z axis: the handler runs *)
    assert (Hw2 : widgets (scene s2) !! n = Some (hidden_widget data_source AxisZ L)).
    { change (widgets (scene s2)) with (widgets (scene s1)).
      rewrite Hws1. apply list_lookup_middle. reflexivity. }
    assert (Hm2 : luts (scene s2) !! lut (hidden_widget data_source AxisZ L)
                  = Some m1) by exact Hm1.
    destruct (on_cut_brightness_contrast_effect s2 n _ m1 eq_refl Hw2 Hm2 Hlive2)
      as (s' & Hrun' & Hself' & Hchildren' & Hws' & Hluts').
    destruct (on_cut_brightness_contrast_total s2 Hwf1 Hlive2)
      as (s'' & Hrun'' & _ & _ & Hlen'' & Hlenl'' & Hlut'').
    rewrite Hrun' in Hrun''. injection Hrun'' as <-.
    change (lut (hidden_widget data_source AxisZ L)) with L in Hluts'.
    set (r := display_range (default_data_range m1).1 (default_data_range m1).2
                (cut_brightness (self s2)) (cut_contrast (self s2))) in *.
    assert (HL : luts (scene s') !! L =
                 Some (set_data_range r (set_use_default_range false m1))).
    { rewrite Hluts', !list_lookup_alter_eq.
      change (luts (scene s2)) with (luts (scene s1)). rewrite Hm1. reflexivity. }
    exists s'. split; [exact Hrun'|].
    split; [eapply (scene_wf_transport (scene s2)); eauto|].
    split; [apply (handles_live_mono s2); [assumption | assumption | lia]|].
    split; [rewrite Hself'; exact Hself2|].
    split; [rewrite Hchildren'; exact Hout1|].
    split; [rewrite Hchildren'; eauto|].
    split.
    { intros k. rewrite Hws', Hself2.
      change (widgets (scene s2)) with (widgets (scene s1)). rewrite Hws1.
      reflexivity. }
    split; [rewrite HL; eauto|].
    split.
    { intros l m Hm. destruct (Hluts1 l m Hm) as (m' & Hm' & Hd & Hg).
      rewrite Hluts'. change (luts (scene s2)) with (luts (scene s1)).
      destruct (decide (L = l)) as [<-|Hne].
      - rewrite !list_lookup_alter_eq, Hm'. simpl. eauto.
      - rewrite !list_lookup_alter_ne, Hm' by congruence. eauto. }
    intros _. exists (set_data_range r (set_use_default_range false m1)).
    split; [|split; [reflexivity|]].
    + unfold z_lut_manager. rewrite Hself'. simpl. rewrite Hws', Hw2. simpl.
      rewrite iter_count_render_lut. exact HL.
    + unfold r. rewrite Hself2.
      destruct (store_ipw_scalars AxisZ (Some n) (self s)) as (_ & -> & ->).
      reflexivity.
  - (* the x and y axes: no handler runs *)
    exists s2.
    split; [destruct a; [reflexivity | reflexivity | contradiction]|].
    split; [exact Hwf1|]. split; [exact Hlive2|]. split; [exact Hself2|].
    split; [exact Hout1|]. split; [eauto|].
    split; [intros k; rewrite Hplain; destruct a; [reflexivity | reflexivity
                                                   | contradiction]|].
    split; [eauto|]. split; [exact Hluts1|]. intros Hz. contradiction.
Qed.

Lemma hits_cons k (a : option handle) (l : list (option handle)) :
  hits k (a :: l) = (if decide (a = Some k) then 1 else 0) + hits k l.
Proof.
  unfold hits. rewrite filter_cons. destruct (decide (a = Some k)); reflexivity.
Qed.

Lemma hits_of_fresh_handles n k :
  hits k [Some n; Some (S n); Some (S (S n))] =
  if decide (n <= k < n + 3) then 1 else 0.
Proof.
  rewrite !hits_cons. change (hits k []) with 0.
  destruct (decide (Some n = Some k)) as [E1|E1],
           (decide (Some (S n) = Some k)) as [E2|E2],
           (decide (Some (S (S n)) = Some k)) as [E3|E3],
           (decide (n <= k < n + 3)) as [E|E];
    simpl; try reflexivity; try (simplify_eq; lia);
    exfalso; assert (Hk : k = n \/ k = S n \/ k = S (S n)) by lia;
    destruct Hk as [Hk | [Hk | Hk]]; subst k; congruence.
Qed.

(** The widgets a list of lookups describes. *)
Lemma widgets_by_lookup (ws ws' : list (@ImagePlaneWidget F)) (g : nat -> nat) :
  (forall k, ws' !! k = Nat.iter (g k) count_render <$> ws !! k) ->
  ws' = imap (fun k w => Nat.iter (g k) count_render w) ws.
Proof.
  intros Hk. apply list_eq. intros k. rewrite Hk, list_lookup_imap. reflexivity.
Qed.

(** A call of [add_actors_to_scene] that finds the data source, field by
    field. *)
Lemma add_actors_effect (volume_actor : VolumeActor) s data_source :
  scene_wf (scene s) -> handles_live s ->
  _find_volume_data_source (scene s) volume_actor = Some data_source ->
  exists s',
    add_actors_to_scene volume_actor s = Return tt s' /\
    scene_wf (scene s') /\ handles_live s' /\
    image_plane_widgets (self s') =
      [Some (length (widgets (scene s)));
       Some (S (length (widgets (scene s))));
       Some (S (S (length (widgets (scene s)))))] /\
    (slicer_alpha (self s') = slicer_alpha (self s) /\
     cut_brightness (self s') = cut_brightness (self s) /\
     cut_contrast (self s') = cut_contrast (self s)) /\
    outputs <$> children (scene s') = outputs <$> children (scene s) /\
    widgets (scene s') =
      widgets (scene s) ++
      (count_render <$>
         [hidden_widget data_source AxisX (source_lut (scene s) data_source);
          hidden_widget data_source AxisY (source_lut (scene s) data_source);
          hidden_widget data_source AxisZ (source_lut (scene s) data_source)]) /\
    (exists m, luts (scene s') !! source_lut (scene s) data_source = Some m /\
               lut_mode m = "gray") /\
    (forall l m, luts (scene s) !! l = Some m ->
       exists m', luts (scene s') !! l = Some m' /\
         default_data_range m' = default_data_range m) /\
    (exists m, z_lut_manager s' = Some m /\
       use_default_range m = false /\
       data_range m =
         display_range (default_data_range m).1 (default_data_range m).2
           (cut_brightness (self s)) (cut_contrast (self s))).
Proof.
  intros Hwf Hlive Hfind.
  set (n := length (widgets (scene s))).
  set (L := source_lut (scene s) data_source).
  assert (Hnd : exists nd, children (scene s) !! data_source = Some nd).
  { unfold _find_volume_data_source in Hfind.
    apply find_child_Some in Hfind as (_ & nd & Hnd & _).
    rewrite Nat.sub_0_r in Hnd. eauto. }
  destruct Hnd as [nd Hnd].
  destruct (attach_axis_effect data_source AxisX s nd Hwf Hlive Hnd)
    as (s1 & Hrun1 & Hwf1 & Hlive1 & Hself1 & Hout1 & (nd1 & Hnd1 & Hmm1)
        & Hws1 & _ & Hluts1 & _).
  fold n L in Hself1, Hws1, Hmm1.
  assert (HL1 : source_lut (scene s1) data_source = L)
    by (apply source_lut_of_node; eauto).
  assert (Hw1 : widgets (scene s1) =
                widgets (scene s) ++ [hidden_widget data_source AxisX L]).
  { apply list_eq. intros k. rewrite Hws1.
    destruct (_ !! k); reflexivity. }
  assert (Hn1 : length (widgets (scene s1)) = S n).
  { rewrite Hw1, length_app. simpl. unfold n. lia. }
  destruct (attach_axis_effect data_source AxisY s1 nd1 Hwf1 Hlive1 Hnd1)
    as (s2 & Hrun2 & Hwf2 & Hlive2 & Hself2 & Hout2 & (nd2 & Hnd2 & Hmm2)
        & Hws2 & _ & Hluts2 & _).
  rewrite Hn1 in Hself2. rewrite HL1 in Hws2, Hmm2.
  assert (HL2 : source_lut (scene s2) data_source = L)
    by (apply source_lut_of_node; eauto).
  assert (Hw2 : widgets (scene s2) =
                widgets (scene s1) ++ [hidden_widget data_source AxisY L]).
  { apply list_eq. intros k. rewrite Hws2.
    destruct (_ !! k); reflexivity. }
  assert (Hn2 : length (widgets (scene s2)) = S (S n)).
  { rewrite Hw2, length_app, Hn1. simpl. lia. }
  destruct (attach_axis_effect data_source AxisZ s2 nd2 Hwf2 Hlive2 Hnd2)
    as (s3 & Hrun3 & Hwf3 & Hlive3 & Hself3 & Hout3 & _
        & Hws3 & HL3 & Hluts3 & Hz3).
  rewrite Hn2 in Hself3, Hws3. rewrite HL2 in Hws3, HL3.
  assert (Hipws : image_plane_widgets (self s3) = [Some n; Some (S n); Some (S (S n))]).
  { rewrite Hself3, Hself2, Hself1. reflexivity. }
  exists s3. split.
  { unfold add_actors_to_scene, bind at 1, get. rewrite Hfind.
    set (body := fun axis : Axis => _).
    change (for_ xyz body) with (body AxisX ;;; body AxisY ;;; body AxisZ ;;; ret tt).
    unfold bind. unfold body at 1. rewrite Hrun1.
    unfold body at 1. rewrite Hrun2. unfold body. rewrite Hrun3. reflexivity. }
  split; [exact Hwf3|]. split; [exact Hlive3|]. split; [exact Hipws|].
  split; [rewrite Hself3, Hself2, Hself1; auto|].
  split; [rewrite Hout3, Hout2, Hout1; reflexivity|].
  split.
  { rewrite <- Hself3, Hipws in Hws3.
    rewrite (widgets_by_lookup _ _ _ Hws3), Hw2, Hw1.
    rewrite <- !app_assoc. simpl.
    rewrite imap_app. f_equal.
    - apply list_eq. intros k. rewrite list_lookup_imap.
      destruct (widgets (scene s) !! k) as [w|] eqn:Hk; [|reflexivity].
      apply lookup_lt_Some in Hk. simpl. rewrite hits_of_fresh_handles.
      fold n in Hk. destruct (decide _); [lia | reflexivity].
    - fold n. simpl.
      rewrite !hits_of_fresh_handles.
      repeat (destruct (decide _); [|lia]). reflexivity. }
  split; [exact HL3|].
  split.
  { intros l m Hm.
    destruct (Hluts1 l m Hm) as (m1 & Hm1 & Hd1 & _).
    destruct (Hluts2 l m1 Hm1) as (m2 & Hm2 & Hd2 & _).
    destruct (Hluts3 l m2 Hm2) as (m3 & Hm3 & Hd3 & _).
    exists m3. split; [exact Hm3 | congruence]. }
  destruct (Hz3 eq_refl) as (m & Hm & Hudr & Hdr).
  exists m. split; [exact Hm|]. split; [exact Hudr|].
  rewrite Hdr, Hself2, Hself1. reflexivity.
Qed.

End AttachEffect.

(** ** Attachment, as a client sees it *)

Section Attachment.
Context {F : Type} {ops : FloatOps F}.
Implicit Types (s : @State F).

(** X4.  A call of [add_actors_to_scene] that finds the data source returns
    and adds exactly three image plane widgets at the end of the scene's
    widgets: bound to that data source, oriented [x_axes], [y_axes] and
    [z_axes], invisible, sharing the LUT manager of the source, whose LUT
    mode is ["gray"], and each redrawn once.  The three handles of the object
    name these new widgets, in this order, whatever they named before, and
    the widgets that were in the scene are untouched. *)
Theorem add_actors_appends_three_hidden_widgets (volume_actor : VolumeActor) s
    data_source :
  scene_wf (scene s) -> handles_live s ->
  _find_volume_data_source (scene s) volume_actor = Some data_source ->
  exists s',
    add_actors_to_scene volume_actor s = Return tt s' /\
    image_plane_widgets (self s') =
      [Some (length (widgets (scene s)));
       Some (S (length (widgets (scene s))));
       Some (S (S (length (widgets (scene s)))))] /\
    widgets (scene s') =
      widgets (scene s) ++
      (count_render <$>
         [hidden_widget data_source AxisX (source_lut (scene s) data_source);
          hidden_widget data_source AxisY (source_lut (scene s) data_source);
          hidden_widget data_source AxisZ (source_lut (scene s) data_source)]) /\
    (exists m, luts (scene s') !! source_lut (scene s) data_source = Some m /\
               lut_mode m = "gray").
Proof.
  intros Hwf Hlive Hfind.
  destruct (add_actors_effect volume_actor s data_source Hwf Hlive Hfind)
    as (s' & Hrun & _ & _ & Hipws & _ & _ & Hws & Hgray & _).
  exists s'. auto.
Qed.

(** X5.  Attachment applies the brightness and contrast the object holds:
    when the call has found the data source, the LUT manager of the new z
    widget no longer uses its default range, and its display range is the
    one the brightness/contrast mapping computes from its default data range
    and the stored brightness and contrast, which the call leaves as they
    were. *)
Theorem add_actors_applies_brightness_contrast (volume_actor : VolumeActor) s
    data_source :
  scene_wf (scene s) -> handles_live s ->
  _find_volume_data_source (scene s) volume_actor = Some data_source ->
  exists s' m,
    add_actors_to_scene volume_actor s = Return tt s' /\
    cut_brightness (self s') = cut_brightness (self s) /\
    cut_contrast (self s') = cut_contrast (self s) /\
    z_lut_manager s' = Some m /\
    use_default_range m = false /\
    data_range m =
      display_range (default_data_range m).1 (default_data_range m).2
        (cut_brightness (self s)) (cut_contrast (self s)).
Proof.
  intros Hwf Hlive Hfind.
  destruct (add_actors_effect volume_actor s data_source Hwf Hlive Hfind)
    as (s' & Hrun & _ & _ & _ & (_ & Hb & Hc) & _ & _ & _ & _ & m & Hm & Hu & Hr).
  exists s', m. auto 10.
Qed.

(** X6.  [add_actors_to_scene] is not idempotent: a second call with the
    same volume actor finds the data source again and adds three more
    widgets; the handles then name the second three, and the first three
    stay in the scene as the first call left them. *)
Theorem add_actors_twice_adds_six_widgets (volume_actor : VolumeActor) s
    data_source :
  scene_wf (scene s) -> handles_live s ->
  _find_volume_data_source (scene s) volume_actor = Some data_source ->
  exists s1 s2,
    add_actors_to_scene volume_actor s = Return tt s1 /\
    add_actors_to_scene volume_actor s1 = Return tt s2 /\
    length (widgets (scene s2)) = length (widgets (scene s)) + 6 /\
    image_plane_widgets (self s2) =
      [Some (length (widgets (scene s)) + 3);
       Some (length (widgets (scene s)) + 4);
       Some (length (widgets (scene s)) + 5)] /\
    (forall k, k < length (widgets (scene s)) + 3 ->
               widgets (scene s2) !! k = widgets (scene s1) !! k).
Proof.
  intros Hwf Hlive Hfind.
  destruct (add_actors_effect volume_actor s data_source Hwf Hlive Hfind)
    as (s1 & Hrun1 & Hwf1 & Hlive1 & _ & _ & Hout1 & Hws1 & _).
  assert (Hfind1 : _find_volume_data_source (scene s1) volume_actor
                   = Some data_source).
  { unfold _find_volume_data_source in *. simpl in *.
    rewrite (find_child_outputs _ _ (children (scene s)) 0 Hout1). exact Hfind. }
  destruct (add_actors_effect volume_actor s1 data_source Hwf1 Hlive1 Hfind1)
    as (s2 & Hrun2 & _ & _ & Hipws2 & _ & _ & Hws2 & _).
  assert (Hlen1 : length (widgets (scene s1)) = length (widgets (scene s)) + 3).
  { rewrite Hws1, length_app. simpl. lia. }
  exists s1, s2. split; [exact Hrun1|]. split; [exact Hrun2|].
  split; [rewrite Hws2, length_app, Hlen1; simpl; lia|].
  split.
  - rewrite Hipws2, Hlen1. repeat f_equal; lia.
  - intros k Hk. rewrite Hws2. apply lookup_app_l. lia.
Qed.

End Attachment.

(** ** Assignments and sequences of calls *)

Section Assignment.
Context {F : Type} {ops : FloatOps F} {ord : FloatOrder F}.
Implicit Types (s : @State F) (t : RangeTrait) (v : F).

Lemma paint_step_frame (alpha : F) (a : option handle) s :
  self (paint_step alpha a s) = self s /\
  luts (scene (paint_step alpha a s)) = luts (scene s) /\
  children (scene (paint_step alpha a s)) = children (scene s).
Proof.
  unfold paint_step. rewrite !touch_self, !touch_luts, !touch_children. auto.
Qed.

(** Run with an opacity the toolkit accepts, the opacity handler returns on
    live handles and keeps the shape of the scene. *)
Lemma slicer_alpha_changed_total (alpha : F) s :
  handles_live s ->
  refused f0 f1 alpha = false ->
  exists s',
    _slicer_alpha_changed alpha s = Return tt s' /\
    self s' = self s /\
    children (scene s') = children (scene s) /\
    luts (scene s') = luts (scene s) /\
    length (widgets (scene s')) = length (widgets (scene s)) /\
    forall k, lut <$> widgets (scene s') !! k = lut <$> widgets (scene s) !! k.
Proof.
  intros Hlive Hok.
  eexists. split; [apply slicer_alpha_changed_run; assumption|].
  split; [apply foldl_step_self; intros; apply paint_step_frame|].
  split; [apply foldl_step_children; intros; apply paint_step_frame|].
  split; [apply foldl_step_luts; intros; apply paint_step_frame|].
  split; [apply (foldl_step_length _ _ (paint_step_widgets alpha))|].
  intros k.
  rewrite (foldl_step_widgets _ _ (paint_step_widgets alpha)).
  destruct (widgets (scene s) !! k) as [w|]; simpl; [|reflexivity].
  f_equal. apply (iter_paint_frame alpha _ w).
Qed.

Lemma stored_frame t v s :
  scene (stored t v s) = scene s /\
  image_plane_widgets (self (stored t v s)) = image_plane_widgets (self s) /\
  trait_value t (self (stored t v s)) = v /\
  (forall t', t' <> t ->
     trait_value t' (self (stored t v s)) = trait_value t' (self s)).
Proof.
  destruct t; repeat split; intros [] Hne; try reflexivity; contradiction.
Qed.

Lemma stored_within t v s :
  traits_within (self s) ->
  refused (trait_low t) (trait_high t) v = false ->
  traits_within (self (stored t v s)).
Proof.
  intros (Ha & Hb & Hc) Hok.
  destruct t; unfold traits_within; simpl; repeat split;
    first [assumption | exact Hok].
Qed.

(** An assignment the validator lets through returns on valid references
    and keeps them valid. *)
Lemma assign_accepted t v s :
  scene_wf (scene s) -> handles_live s ->
  refused (trait_low t) (trait_high t) v = false ->
  exists s',
    assign t v s = Return tt s' /\
    scene_wf (scene s') /\ handles_live s' /\
    self s' = self (stored t v s) /\
    children (scene s') = children (scene s).
Proof.
  intros Hwf Hlive Hok. rewrite (assign_accepted_run t v s Hok).
  destruct (stored_frame t v s) as (Hscene0 & Hipws0 & _).
  assert (Hwf0 : scene_wf (scene (stored t v s))) by (rewrite Hscene0; exact Hwf).
  assert (Hlive0 : handles_live (stored t v s)).
  { unfold handles_live. rewrite Hscene0, Hipws0. exact Hlive. }
  destruct (feq _ _).
  { exists (stored t v s). rewrite Hscene0.
    split; [reflexivity|]. split; [exact Hwf|].
    split; [exact Hlive0|]. split; reflexivity. }
  assert (Hgen : forall s',
            self s' = self (stored t v s) ->
            children (scene s') = children (scene (stored t v s)) ->
            length (widgets (scene s')) = length (widgets (scene (stored t v s))) ->
            length (luts (scene s')) = length (luts (scene (stored t v s))) ->
            (forall k, lut <$> widgets (scene s') !! k =
                       lut <$> widgets (scene (stored t v s)) !! k) ->
            scene_wf (scene s') /\ handles_live s' /\
            self s' = self (stored t v s) /\
            children (scene s') = children (scene s)).
  { intros s' Hself Hch Hlw Hll Hlut. split; [|split; [|split]].
    - eapply scene_wf_transport; eauto.
    - apply (handles_live_mono (stored t v s)); [assumption | assumption | lia].
    - exact Hself.
    - rewrite Hch, Hscene0. reflexivity. }
  destruct t.
  - destruct (slicer_alpha_changed_total v (stored SlicerAlpha v s) Hlive0 Hok)
      as (s' & Hrun & Hself & Hch & Hluts & Hlw & Hlut).
    exists s'. split; [exact Hrun|]. apply Hgen; auto. rewrite Hluts. reflexivity.
  - destruct (on_cut_brightness_contrast_total (stored CutBrightness v s) Hwf0 Hlive0)
      as (s' & Hrun & Hself & Hch & Hlw & Hll & Hlut).
    exists s'. split; [exact Hrun|]. apply Hgen; auto.
  - destruct (on_cut_brightness_contrast_total (stored CutContrast v s) Hwf0 Hlive0)
      as (s' & Hrun & Hself & Hch & Hlw & Hll & Hlut).
    exists s'. split; [exact Hrun|]. apply Hgen; auto.
Qed.

Lemma add_actors_not_found (volume_actor : VolumeActor) s :
  _find_volume_data_source (scene s) volume_actor = None ->
  add_actors_to_scene volume_actor s = Return tt s.
Proof.
  intros Hfind. unfold add_actors_to_scene, bind, get. rewrite Hfind. reflexivity.
Qed.

(** What a call does to a state whose references are valid. *)
Lemma call_effect (c : Call) s :
  scene_wf (scene s) -> handles_live s ->
  (exists s', call c s = Return tt s' /\
     scene_wf (scene s') /\ handles_live s' /\
     (all_or_none (self s) -> all_or_none (self s')) /\
     (traits_within (self s) -> traits_within (self s')) /\
     match c with
     | Assign t v =>
         refused (trait_low t) (trait_high t) v = false /\
         trait_value t (self s') = v
     | AddActors _ => True
     end) \/
  (call c s = Raise TraitError s /\
   exists t v, c = Assign t v /\
               refused (trait_low t) (trait_high t) v = true).
Proof.
  intros Hwf Hlive. destruct c as [t v | volume_actor]; simpl.
  - destruct (refused (trait_low t) (trait_high t) v) eqn:Hok.
    + right. split; [apply assign_refused; exact Hok | eauto].
    + left. destruct (assign_accepted t v s Hwf Hlive Hok)
        as (s' & Hrun & Hwf' & Hlive' & Hself & _).
      exists s'. split; [exact Hrun|]. split; [exact Hwf'|].
      split; [exact Hlive'|].
      destruct (stored_frame t v s) as (_ & Hipws & Hv & _).
      split; [unfold all_or_none; rewrite Hself, Hipws; trivial|].
      split; [intros Htr; rewrite Hself; apply stored_within; assumption|].
      split; [reflexivity | rewrite Hself; exact Hv].
  - left.
    destruct (_find_volume_data_source (scene s) volume_actor) as [ds|] eqn:Hfind.
    + destruct (add_actors_effect volume_actor s ds Hwf Hlive Hfind)
        as (s' & Hrun & Hwf' & Hlive' & Hipws & (Ha & Hb & Hc) & _).
      exists s'. split; [exact Hrun|]. split; [exact Hwf'|].
      split; [exact Hlive'|].
      split; [intros _; right; eauto|].
      split; [|exact I].
      unfold traits_within. rewrite Ha, Hb, Hc. trivial.
    + exists s. rewrite (add_actors_not_found _ _ Hfind).
      split; [reflexivity|]. split; [exact Hwf|]. split; [exact Hlive|].
      split; [trivial|]. split; [trivial | exact I].
Qed.

(** X7.  An accepted assignment of a brightness or contrast that differs
    from the stored one recomputes the display range while the z widget is
    attached: the call returns, the value is stored, the other scalars are
    as before, and the active range is the one the mapping computes from the
    default data range and the brightness and contrast now stored. *)
Theorem accepted_assignment_recomputes_display_range t v s lo hi :
  t <> SlicerAlpha ->
  handles_live s ->
  default_range s = Some (lo, hi) ->
  in_range (trait_low t) (trait_high t) v = true ->
  feq (trait_value t (self s)) v = false ->
  exists s',
    assign t v s = Return tt s' /\
    trait_value t (self s') = v /\
    (forall t', t' <> t -> trait_value t' (self s') = trait_value t' (self s)) /\
    active_range s' =
      Some (display_range lo hi (cut_brightness (self s')) (cut_contrast (self s'))).
Proof.
  intros Ht Hlive Hd Hin Hne.
  rewrite (assign_accepted_run t v s (in_range_not_refused _ _ _ Hin)), Hne.
  assert (Hstep : exists s',
            _on_cut_brightness_contrast (stored t v s) = Return tt s' /\
            self s' = self (stored t v s) /\
            active_range s' =
              Some (display_range lo hi (cut_brightness (self (stored t v s)))
                      (cut_contrast (self (stored t v s))))).
  { assert (Hlive0 : handles_live (stored t v s)) by (destruct t; exact Hlive).
    assert (Hd0 : default_range (stored t v s) = Some (lo, hi))
      by (destruct t; exact Hd).
    destruct (on_cut_brightness_contrast_spec (stored t v s) lo hi Hlive0 Hd0)
      as (s' & Hrun & Hself & Hlut).
    exists s'. split; [exact Hrun|]. split; [exact Hself|].
    unfold active_range. rewrite Hlut. unfold default_range in Hd0.
    destruct (z_lut_manager (stored t v s)); [reflexivity | discriminate]. }
  destruct Hstep as (s' & Hrun & Hself & Hr).
  destruct (stored_frame t v s) as (_ & _ & Hv & Hothers).
  exists s'. split; [destruct t; [contradiction | exact Hrun | exact Hrun]|].
  rewrite Hself. auto.
Qed.

(** X8.  While the z widget is not attached, an accepted assignment of a
    brightness or contrast only stores the value: the call returns, the
    scene is untouched (no range is computed and no widget redrawn, even one
    held by the x or y handle), and the handles are as before. *)
Theorem brightness_contrast_only_stored_while_z_unattached t v s :
  t <> SlicerAlpha ->
  image_plane_widget_z (self s) = None ->
  in_range (trait_low t) (trait_high t) v = true ->
  exists s',
    assign t v s = Return tt s' /\
    scene s' = scene s /\
    trait_value t (self s') = v /\
    image_plane_widgets (self s') = image_plane_widgets (self s).
Proof.
  intros Ht Hz Hin.
  rewrite (assign_accepted_run t v s (in_range_not_refused _ _ _ Hin)).
  destruct (stored_frame t v s) as (Hscene & Hipws & Hv & _).
  exists (stored t v s). split; [|auto].
  destruct (feq _ _); [reflexivity|].
  destruct t; [contradiction | |];
    apply on_cut_brightness_contrast_unattached; exact Hz.
Qed.

(** X9.  On a state whose references are valid no call of the interface
    raises anything but the [TraitError] of a refused assignment:
    [add_actors_to_scene] returns, and an assignment returns, with the value
    stored, exactly when the value is neither below the lower bound nor
    above the upper bound of its trait (so a NaN is stored); otherwise it
    raises [TraitError] and changes nothing. *)
Theorem call_outcome_on_valid_references (c : Call) s :
  scene_wf (scene s) -> handles_live s ->
  match c with
  | AddActors volume_actor => exists s', call c s = Return tt s'
  | Assign t v =>
      if refused (trait_low t) (trait_high t) v
      then call c s = Raise TraitError s
      else exists s', call c s = Return tt s' /\ trait_value t (self s') = v
  end.
Proof.
  intros Hwf Hlive.
  destruct (call_effect c s Hwf Hlive)
    as [(s' & Hrun & _ & _ & _ & _ & Hc) | (Hrun & t & v & -> & Hout)].
  - destruct c as [t v | volume_actor]; [|eauto].
    destruct Hc as (-> & Hv). eauto.
  - rewrite Hout. exact Hrun.
Qed.

(** X10.  Validity is an invariant of the interface: after any sequence of
    assignments and [add_actors_to_scene] calls made on a state whose
    references are valid and whose three scalars are neither below the lower
    nor above the upper bound of their traits, refused assignments included,
    the references of the object and of the scene are valid and no scalar is
    below the lower or above the upper bound of its trait. *)
Theorem run_calls_keeps_validity (cs : list Call) s :
  valid s -> valid (run_calls cs s).
Proof.
  unfold run_calls. revert s. induction cs as [|c cs IH]; intros s Hs; [exact Hs|].
  simpl. apply IH. destruct Hs as [Hwf Hlive Htr].
  destruct (call_effect c s Hwf Hlive)
    as [(s' & -> & Hwf' & Hlive' & _ & Hkeep & _) | (-> & _)]; simpl.
  - split; auto.
  - split; assumption.
Qed.

(** X11.  No sequence of calls leaves the object partly attached: started
    on a consistent state whose three handles are all [None] or all
    attached, any sequence of assignments and [add_actors_to_scene] calls
    ends in a state whose three handles are all [None] or all attached. *)
Theorem run_calls_keeps_all_or_none (cs : list Call) s :
  consistent s -> all_or_none (self s) -> all_or_none (self (run_calls cs s)).
Proof.
  intros [Hwf Hlive _]. unfold run_calls. revert s Hwf Hlive.
  induction cs as [|c cs IH]; intros s Hwf Hlive Hall; [exact Hall|].
  simpl.
  destruct (call_effect c s Hwf Hlive)
    as [(s' & -> & Hwf' & Hlive' & Hkeep & _) | (-> & _)];
    simpl; apply IH; auto.
Qed.

End Assignment.

(** ** The helpers of the test module *)

Section TestHelperFacts.
Context {Obj Class : Type} (isinstance : Obj -> Class -> bool).

Lemma foldl_add_from (a : Z) (l : list Z) :
  foldl Z.add a l = (a + foldl Z.add 0 l)%Z.
Proof.
  revert a. induction l as [|x l IH]; intros a; simpl; [lia|].
  rewrite (IH (a + x)%Z), (IH (0 + x)%Z). lia.
Qed.

Lemma count_types_cons (c : Class) (obj : Obj) (l : list Obj) :
  count_types isinstance c (obj :: l) =
  (Z.b2z (isinstance obj c) + count_types isinstance c l)%Z.
Proof. unfold count_types. simpl. apply foldl_add_from. Qed.

(** X12.  [count_types] answers the number of objects of the list that are
    instances of the class; so it lies between 0 and the length of the
    list, and the count of a concatenation is the sum of the counts. *)
Theorem count_types_counts_instances (c : Class) (l1 l2 : list Obj) :
  count_types isinstance c l1 =
    Z.of_nat (length (filter (fun obj => isinstance obj c = true) l1)) /\
  (0 <= count_types isinstance c l1 <= Z.of_nat (length l1))%Z /\
  count_types isinstance c (l1 ++ l2) =
    (count_types isinstance c l1 + count_types isinstance c l2)%Z.
Proof.
  split; [|split].
  - induction l1 as [|obj l IH]; [reflexivity|].
    rewrite count_types_cons, IH, filter_cons.
    destruct (isinstance obj c); simpl.
    + destruct (decide (true = true)); [simpl; lia | congruence].
    + destruct (decide (false = true)); [discriminate | lia].
  - induction l1 as [|obj l IH]; [simpl; unfold count_types; simpl; lia|].
    rewrite count_types_cons. destruct (isinstance obj c); simpl length; simpl Z.b2z; lia.
  - induction l1 as [|obj l IH]; [unfold count_types at 2; simpl; lia|].
    simpl. rewrite !count_types_cons, IH. lia.
Qed.

End TestHelperFacts.

Section GcStateFacts.
Context {H A : Type}.

(** X13.  [with restore_gc_state(): body] leaves the collector enabled
    exactly if it was enabled on entry, whatever the body did to it and
    whether the body returned or raised; the body's result or exception
    passes through, and the rest of the state is as the body left it. *)
Theorem restore_gc_state_restores (body : M (@Interp H) A) (s : @Interp H) :
  with_restore_gc_state body s =
  match body s with
  | Return a s' => Return a {| gc_enabled := gc_enabled s; rest := rest s' |}
  | Raise e s' => Raise e {| gc_enabled := gc_enabled s; rest := rest s' |}
  end.
Proof.
  unfold with_restore_gc_state, try_finally, gc_isenabled, bind.
  destruct (body s) as [a s'|e s'], (gc_enabled s); reflexivity.
Qed.

End GcStateFacts.

(** ** Brightness shifts, contrast scales *)

(** X14.  Read in exact arithmetic, the brightness only moves the display
    range and the contrast only resizes it: the handler leaves a range whose
    center is [level - radius * b], whatever the contrast, and whose width
    is [(data_high - data_low) * 2 ^ (- c)], whatever the brightness. *)
Theorem brightness_shifts_contrast_scales_exact (s : @State R) (lo hi : R) :
  handles_live s ->
  default_range s = Some (lo, hi) ->
  exists s' r,
    _on_cut_brightness_contrast (ops := exact) s = Return tt s' /\
    active_range s' = Some r /\
    center (ops := exact) r
      = ((lo + hi) / 2 - (hi - lo) / 2 * cut_brightness (self s))%R /\
    width (ops := exact) r
      = ((hi - lo) * Rpower 2 (- cut_contrast (self s)))%R.
Proof.
  intros Hlive Hd.
  destruct (recompute_active_range (ops := exact) s lo hi Hlive Hd)
    as (s' & Hrun & Hr).
  exists s'. eexists. split; [exact Hrun|]. split; [exact Hr|].
  split; [apply exact_center | apply exact_width].
Qed.

(** ** Instances of the further properties on concrete scenes *)

Lemma exact_in_range (low high v : R) :
  (low <= v <= high)%R -> in_range (ops := exact) low high v = true.
Proof.
  intros [Hl Hh]. unfold in_range. simpl.
  rewrite !bool_decide_eq_true_2 by assumption. reflexivity.
Qed.

Lemma attached_scene_wf {F : Type} {ops : FloatOps F} (r : F * F) :
  scene_wf (attached_scene r).
Proof.
  split.
  - intros h w Hw. simpl.
    destruct h as [|[|[|h]]]; simpl in Hw; [| | |discriminate];
      injection Hw as <-; simpl; lia.
  - intros [|i] nd l Hnd Hl; [|destruct i; discriminate].
    injection Hnd as <-. injection Hl as <-. simpl. lia.
Qed.

Lemma exact_traits_in_range :
  traits_in_range (ops := exact) (new_cut_planes (ops := exact)).
Proof. repeat split; apply exact_in_range; simpl; lra. Qed.

Lemma exact_fresh_consistent : consistent (ops := exact) exact_fresh.
Proof.
  split; [apply fresh_scene_wf | repeat constructor | apply exact_traits_in_range].
Qed.

Lemma brightness_contrast_handler_frame_witness :
  handles_live exact_attached /\
  exists s',
    _on_cut_brightness_contrast (ops := exact) exact_attached = Return tt s' /\
    self s' = self exact_attached /\
    children (scene s') = children (scene exact_attached) /\
    (forall k w0, widgets (scene exact_attached) !! k = Some w0 ->
       exists w1, widgets (scene s') !! k = Some w1 /\
         source w1 = source w0 /\ plane_orientation w1 = plane_orientation w0 /\
         lut w1 = lut w0 /\ visible w1 = visible w0 /\ opacity w1 = opacity w0 /\
         (Some k ∈ image_plane_widgets (self exact_attached) ->
          renders w0 < renders w1) /\
         (Some k ∉ image_plane_widgets (self exact_attached) -> w1 = w0)) /\
    (forall l, l <> 0 -> luts (scene s') !! l = luts (scene exact_attached) !! l) /\
    (exists m', luts (scene s') !! 0 = Some m' /\
       lut_mode m' = "gray" /\
       default_data_range m' = (0, 255)%R /\
       use_default_range m' = false).
Proof.
  split; [apply attached_state_live|].
  apply (brightness_contrast_handler_frame (ops := exact) exact_attached 2
           (hidden_widget (ops := exact) 0 AxisZ 0)
           (set_lut_mode "gray"
              (new_lut_manager
                 {| outputs := [0]; scalar_range := (0, 255)%R;
                    module_manager := None |})));
    [reflexivity | reflexivity | reflexivity | apply attached_state_live].
Defined.

Lemma brightness_contrast_handler_idempotent_witness :
  handles_live exact_attached /\
  exists s' s'',
    _on_cut_brightness_contrast (ops := exact) exact_attached = Return tt s' /\
    _on_cut_brightness_contrast (ops := exact) s' = Return tt s'' /\
    luts (scene s'') = luts (scene s').
Proof.
  split; [apply attached_state_live|].
  apply (brightness_contrast_handler_idempotent (ops := exact) exact_attached 2
           (hidden_widget (ops := exact) 0 AxisZ 0)
           (set_lut_mode "gray"
              (new_lut_manager
                 {| outputs := [0]; scalar_range := (0, 255)%R;
                    module_manager := None |})));
    [reflexivity | reflexivity | reflexivity | apply attached_state_live].
Defined.

Lemma add_actors_appends_three_hidden_widgets_witness :
  _find_volume_data_source (scene exact_fresh) {| mapper_input := 0 |} = Some 0 /\
  exists s',
    add_actors_to_scene (ops := exact) {| mapper_input := 0 |} exact_fresh
    = Return tt s' /\
    image_plane_widgets (self s') = [Some 0; Some 1; Some 2] /\
    widgets (scene s') =
      [] ++ (count_render <$>
               [hidden_widget (ops := exact) 0 AxisX 0;
                hidden_widget (ops := exact) 0 AxisY 0;
                hidden_widget (ops := exact) 0 AxisZ 0]) /\
    (exists m, luts (scene s') !! 0 = Some m /\ lut_mode m = "gray").
Proof.
  split; [reflexivity|].
  apply (add_actors_appends_three_hidden_widgets (ops := exact)
           {| mapper_input := 0 |} exact_fresh 0);
    [apply fresh_scene_wf | repeat constructor | reflexivity].
Defined.

Lemma add_actors_applies_brightness_contrast_witness :
  scene_wf (scene exact_fresh) /\
  exists s' m,
    add_actors_to_scene (ops := exact) {| mapper_input := 0 |} exact_fresh
    = Return tt s' /\
    cut_brightness (self s') = 0%R /\
    cut_contrast (self s') = 0%R /\
    z_lut_manager s' = Some m /\
    use_default_range m = false /\
    data_range m =
      display_range (ops := exact) (default_data_range m).1
        (default_data_range m).2 0%R 0%R.
Proof.
  split; [apply fresh_scene_wf|].
  apply (add_actors_applies_brightness_contrast (ops := exact)
           {| mapper_input := 0 |} exact_fresh 0);
    [apply fresh_scene_wf | repeat constructor | reflexivity].
Defined.

Lemma add_actors_twice_adds_six_widgets_witness :
  scene_wf (scene exact_fresh) /\
  exists s1 s2,
    add_actors_to_scene (ops := exact) {| mapper_input := 0 |} exact_fresh
    = Return tt s1 /\
    add_actors_to_scene (ops := exact) {| mapper_input := 0 |} s1
    = Return tt s2 /\
    length (widgets (scene s2)) = 0 + 6 /\
    image_plane_widgets (self s2) = [Some (0 + 3); Some (0 + 4); Some (0 + 5)] /\
    (forall k, k < 0 + 3 -> widgets (scene s2) !! k = widgets (scene s1) !! k).
Proof.
  split; [apply fresh_scene_wf|].
  apply (add_actors_twice_adds_six_widgets (ops := exact)
           {| mapper_input := 0 |} exact_fresh 0);
    [apply fresh_scene_wf | repeat constructor | reflexivity].
Defined.

Lemma accepted_assignment_recomputes_display_range_witness :
  in_range (ops := exact) (trait_low (ops := exact) CutBrightness)
    (trait_high (ops := exact) CutBrightness) 0.5%R = true /\
  feq (FloatOps := exact) (trait_value CutBrightness (self exact_attached)) 0.5%R
  = false /\
  exists s',
    assign (ops := exact) CutBrightness 0.5%R exact_attached = Return tt s' /\
    trait_value CutBrightness (self s') = 0.5%R /\
    (forall t', t' <> CutBrightness ->
       trait_value t' (self s') = trait_value t' (self exact_attached)) /\
    active_range s' =
      Some (display_range (ops := exact) 0%R 255%R
              (cut_brightness (self s')) (cut_contrast (self s'))).
Proof.
  assert (Hin : in_range (ops := exact) (trait_low (ops := exact) CutBrightness)
                  (trait_high (ops := exact) CutBrightness) 0.5%R = true)
    by (apply exact_in_range; simpl; lra).
  assert (Hne : feq (FloatOps := exact)
                  (trait_value CutBrightness (self exact_attached)) 0.5%R = false)
    by (simpl; apply bool_decide_eq_false_2; lra).
  split; [exact Hin|]. split; [exact Hne|].
  apply (accepted_assignment_recomputes_display_range (ops := exact)
           CutBrightness 0.5%R exact_attached 0%R 255%R);
    [discriminate | apply attached_state_live | reflexivity | exact Hin
    | exact Hne].
Defined.

Lemma brightness_contrast_only_stored_while_z_unattached_witness :
  image_plane_widget_z (self exact_fresh) = None /\
  exists s',
    assign (ops := exact) CutContrast 1%R exact_fresh = Return tt s' /\
    scene s' = scene exact_fresh /\
    trait_value CutContrast (self s') = 1%R /\
    image_plane_widgets (self s') = image_plane_widgets (self exact_fresh).
Proof.
  split; [reflexivity|].
  apply (brightness_contrast_only_stored_while_z_unattached (ops := exact)
           CutContrast 1%R exact_fresh);
    [discriminate | reflexivity | apply exact_in_range; simpl; lra].
Defined.

Lemma call_outcome_on_valid_references_witness :
  scene_wf (scene exact_attached) /\ handles_live exact_attached /\
  (if refused (ops := exact) (trait_low (ops := exact) SlicerAlpha)
        (trait_high (ops := exact) SlicerAlpha) 2%R
   then call (ops := exact) (Assign SlicerAlpha 2%R) exact_attached
        = Raise TraitError exact_attached
   else exists s',
          call (ops := exact) (Assign SlicerAlpha 2%R) exact_attached
          = Return tt s' /\
          trait_value SlicerAlpha (self s') = 2%R).
Proof.
  split; [apply attached_scene_wf|]. split; [apply attached_state_live|].
  apply (call_outcome_on_valid_references (ops := exact)
           (Assign SlicerAlpha 2%R) exact_attached);
    [apply attached_scene_wf | apply attached_state_live].
Defined.

Lemma exact_fresh_valid : valid (ops := exact) exact_fresh.
Proof.
  split; [apply fresh_scene_wf | repeat constructor|].
  destruct exact_traits_in_range as (Ha & Hb & Hc).
  repeat split; apply (in_range_not_refused (ops := exact)); assumption.
Qed.

Lemma run_calls_keeps_validity_witness :
  valid (ops := exact) exact_fresh /\
  valid (ops := exact)
    (run_calls (ops := exact)
       [Assign CutBrightness 0.5%R;
        AddActors {| mapper_input := 0 |};
        Assign SlicerAlpha 2%R;
        Assign CutContrast (-1)%R]
       exact_fresh).
Proof.
  split; [apply exact_fresh_valid|].
  apply (run_calls_keeps_validity (ops := exact) _ exact_fresh
           exact_fresh_valid).
Defined.

Lemma run_calls_keeps_all_or_none_witness :
  all_or_none (self exact_fresh) /\
  all_or_none
    (self (run_calls (ops := exact)
             [AddActors {| mapper_input := 1 |};
              Assign CutBrightness 0.5%R;
              AddActors {| mapper_input := 0 |}]
             exact_fresh)).
Proof.
  assert (Hnone : all_or_none (self exact_fresh)) by (left; reflexivity).
  split; [exact Hnone|].
  apply (run_calls_keeps_all_or_none (ops := exact) _ exact_fresh
           exact_fresh_consistent Hnone).
Defined.

Lemma brightness_shifts_contrast_scales_exact_witness :
  default_range exact_attached = Some (0, 255)%R /\
  exists s' r,
    _on_cut_brightness_contrast (ops := exact) exact_attached = Return tt s' /\
    active_range s' = Some r /\
    center (ops := exact) r
      = ((0 + 255) / 2 - (255 - 0) / 2 * cut_brightness (self exact_attached))%R /\
    width (ops := exact) r
      = ((255 - 0) * Rpower 2 (- cut_contrast (self exact_attached)))%R.
Proof.
  split; [reflexivity|].
  apply (brightness_shifts_contrast_scales_exact exact_attached 0%R 255%R);
    [apply attached_state_live | reflexivity].
Defined.
